(** * Demonst-Valores-V2: the dashboard's data shaping, session state and
      spreadsheet-style selection, embedded from
      [frontend/app/dashboard/page.tsx] and [frontend/lib/api.ts]. *)

From Stdlib Require Import ZArith QArith Qround Qabs String Ascii List Sorted Permutation Lia DecimalString.
From stdpp Require Import base gmap sets list strings sorting.

Open Scope Z_scope.

(** ** JavaScript values and array helpers *)

Module Js.

(** The scalar values a sheet cell can hold after JSON decoding.  Numbers are
    the finite ones JSON can carry, kept exact as rationals. *)
Inductive JsValue :=
| JUndefined
| JNull
| JBool (b : bool)
| JNumber (n : Q)
| JString (s : string).

(** [Boolean(v)]. *)
Definition Boolean (v : JsValue) : bool :=
  match v with
  | JUndefined | JNull => false
  | JBool b => b
  | JNumber n => negb (Qeq_bool n 0)
  | JString s => negb (String.eqb s "")
  end.

(** [typeof v === 'number'] *)
Definition is_number (v : JsValue) : bool :=
  match v with JNumber _ => true | _ => false end.

(** [arr.includes(y)] on an array of integers. *)
Definition includes (arr : list Z) (y : Z) : bool := existsb (Z.eqb y) arr.

(** [arr.sort(cmp)].  The language fixes the outcome for a consistent
    comparator and asks for a stable sort; this is a stable insertion sort
    driven by the sign of [cmp]. *)
Fixpoint sort_insert (cmp : Z -> Z -> Z) (x : Z) (sorted : list Z) : list Z :=
  match sorted with
  | [] => [x]
  | y :: rest => if cmp x y <=? 0 then x :: y :: rest else y :: sort_insert cmp x rest
  end.

Fixpoint sort (cmp : Z -> Z -> Z) (arr : list Z) : list Z :=
  match arr with
  | [] => []
  | x :: rest => sort_insert cmp x (sort cmp rest)
  end.

(** The comparator [(a, b) => a - b]. *)
Definition ascending (a b : Z) : Z := a - b.

End Js.
Import Js.

(** ** The record type of the dashboard *)

(** [ano?: number]: the year of a record, as it comes out of the JSON body. *)
Inductive Ano :=
| AnoAbsent
| AnoNull
| AnoNumber (y : Z).

(** [interface SheetDataItem]: the year, the optional percentage map, and the
    index-signature properties in own-property order. *)
Record SheetDataItem := mkItem {
  ano : Ano;
  indicators : list (string * JsValue);
  percentuais : option (list (string * Q))
}.

(** [Object.keys(item)].  Where the two reserved keys sit among the own keys
    is of no consequence below: [tableHeaders] drops both. *)
Definition Object_keys (item : SheetDataItem) : list string :=
  (match ano item with AnoAbsent => [] | _ => ["ano"%string] end)
    ++ List.map fst (indicators item)
    ++ (match percentuais item with Some _ => ["percentuais"%string] | None => [] end).

(** [Boolean(item.ano)]. *)
Definition ano_truthy (a : Ano) : bool :=
  match a with
  | AnoNumber y => negb (y =? 0)
  | _ => false
  end.

(** [.filter(Boolean)] on the mapped years: what is left is a number. *)
Fixpoint filter_Boolean (anos : list Ano) : list Z :=
  match anos with
  | [] => []
  | AnoNumber y :: rest => if y =? 0 then filter_Boolean rest else y :: filter_Boolean rest
  | _ :: rest => filter_Boolean rest
  end.

(** [sheetsData.map(item => item.ano!).filter(Boolean).sort((a, b) => a - b)] *)
Definition yearsOf (sheetsData : list SheetDataItem) : list Z :=
  sort ascending (filter_Boolean (List.map ano sheetsData)).

(** ** lib/api.ts *)

Module Api.

(** The decoded body of the [/api/sheets/data] response. *)
Inductive ResponseData :=
| DataArray (rows : list SheetDataItem)
| DataObject (props : list (string * JsValue))
| DataScalar (v : JsValue).

(** ['message' in response.data] *)
Definition has_message (props : list (string * JsValue)) : bool :=
  existsb (fun p => String.eqb (fst p) "message") props.

(** [fetchSheetsData], from the response on. *)
Definition fetchSheetsData (data : ResponseData) : ResponseData :=
  match data with
  | DataObject props => if has_message props then DataArray [] else data
  | DataArray _ => data
  | DataScalar _ => data
  end.

(** What a rejected request carries: [err.response?.status] and [err.message]. *)
Record AxiosError := mkError {
  response_status : option Z;
  message : option string
}.

(** How the awaited [fetchSheetsData(tabName)] settles for a caller that
    declares the result as [SheetDataItem[]]. *)
Inductive FetchOutcome :=
| Fulfilled (sheetsData : list SheetDataItem)
| Rejected (err : AxiosError).

Definition settle (body : ResponseData) : option FetchOutcome :=
  match fetchSheetsData body with
  | DataArray rows => Some (Fulfilled rows)
  | _ => None
  end.

End Api.
Import Api.

(** ** Data shaping: the memos of the dashboard page *)

(** [item => item.ano && selectedYears.includes(item.ano)] *)
Definition year_is_selected (selectedYears : list Z) (item : SheetDataItem) : bool :=
  match ano item with
  | AnoNumber y => negb (y =? 0) && includes selectedYears y
  | _ => false
  end.

(** [filteredData] *)
Definition filteredData (data : option (list SheetDataItem)) (selectedYears : list Z)
  : option (list SheetDataItem) :=
  match data with
  | None => None
  | Some rows =>
      if (length selectedYears =? 0)%nat then Some []
      else Some (List.filter (year_is_selected selectedYears) rows)
  end.

(** [key => key !== 'ano' && key !== 'percentuais'] *)
Definition indicator_key (key : string) : bool :=
  negb (String.eqb key "ano") && negb (String.eqb key "percentuais").

(** [tableHeaders] *)
Definition tableHeaders (filtered : option (list SheetDataItem)) : list string :=
  match filtered with
  | None | Some [] => []
  | Some (first :: _) => List.filter indicator_key (Object_keys first)
  end.

(** ** Cell rendering *)

Module Render.

(** Half-expand rounding of a non-negative number to hundredths. *)
Definition hundredths (x : Q) : Z := Qfloor (x * 100 + (1 # 2)).

Definition digits (n : Z) : string := NilZero.string_of_uint (N.to_uint (Z.to_N n)).

(** Groups of three, on the reversed digit list. *)
Fixpoint group_rev (ds : list ascii) : list ascii :=
  match ds with
  | a :: b :: c :: ((_ :: _) as more) => a :: b :: c :: "."%char :: group_rev more
  | _ => ds
  end.

Definition grouped (s : string) : string :=
  string_of_list_ascii (rev (group_rev (rev (list_ascii_of_string s)))).

Definition two_digits (n : Z) : string :=
  if n <? 10 then String "0"%char (digits n) else digits n.

(** Modelled from the spec: [Number.prototype.toLocaleString('pt-BR',
    { minimumFractionDigits: 2, maximumFractionDigits: 2 })] is the host's
    formatter, not code of this repository; the spec gives two decimal places
    and [1.234,50]-style separators.  For a non-negative argument. *)
Definition toLocaleString_ptBR (x : Q) : string :=
  let c := hundredths x in
  (grouped (digits (c / 100)) +:+ "," +:+ two_digits (c mod 100))%string.

(** [value < 0] *)
Definition negative (n : Q) : bool := negb (Qle_bool 0 n).

(** The child of [<div className="font-medium">]. *)
Definition renderValue (value : JsValue) : JsValue :=
  match value with
  | JNumber n =>
      JString ((if negative n then "-R$ " else "R$ ") +:+ toLocaleString_ptBR (Qabs n))
  | _ => if Boolean value then value else JString "-"
  end.

End Render.

(** ** The selection engine *)

(** A grid address: [(row, col)], as read back from [data-row] and
    [data-col]. *)
Abbreviation Coord := (Z * Z)%type.

Definition row (c : Coord) : Z := fst c.
Definition col (c : Coord) : Z := snd c.

(** The rendered table, between two renders: every element the handlers can
    reach is identified by the indices React wrote into its data attributes. *)
Record Table := mkTable {
  planilha_valor : list Coord;   (* td.planilha-valor, in document order *)
  cabecalho_ano : list Z;        (* thead th[data-col] *)
  indicador_col : list Z         (* tbody td.indicador-col[data-row] *)
}.

Inductive ClickType := type_cell | type_col | type_row.

#[global] Instance ClickType_eq_dec : EqDecision ClickType.
Proof. solve_decision. Defined.

(** [lastClickedCoords.current]: [{ row, col, type }]. *)
Record Clicked := mkClicked {
  clicked_at : Coord;
  clicked_type : ClickType
}.

(** The selection lives in the class lists of the table's elements and in
    two refs; [isMouseDown] is component state. *)
Record Selection := mkSelection {
  cell_selecionada : gset Coord;      (* elements carrying .cell-selecionada *)
  cabecalho_selecionado : gset Z;     (* .cabecalho-selecionado, by data-col *)
  indicador_selecionado : gset Z;     (* .indicador-selecionado, by data-row *)
  lastClickedCoords : option Clicked;
  startCellCoords : option Coord;
  isMouseDown : bool
}.

(** The modifier keys read off a mouse event. *)
Record MouseEvent := mkEvent {
  ctrlKey : bool;
  metaKey : bool;
  shiftKey : bool
}.

(** How a handler ends: by returning, or by an uncaught [TypeError] that
    leaves the writes made so far in place. *)
Inductive Completion :=
| Returned (st : Selection)
| Thrown (st : Selection).

Definition state_of (c : Completion) : Selection :=
  match c with Returned st | Thrown st => st end.

Section ClassList.
Context {A : Type} `{Countable A}.

Definition classList_add (el : A) (marked : gset A) : gset A := marked ∪ {[ el ]}.
Definition classList_remove (el : A) (marked : gset A) : gset A := marked ∖ {[ el ]}.

(** [el.classList.toggle(name)] *)
Definition classList_toggle (el : A) (marked : gset A) : gset A :=
  if decide (el ∈ marked) then classList_remove el marked else classList_add el marked.

(** [el.classList.toggle(name, force)] *)
Definition classList_toggle_force (el : A) (force : bool) (marked : gset A) : gset A :=
  if force then classList_add el marked else classList_remove el marked.

(** [querySelectorAll('.name').forEach(el => el.classList.remove('name'))] *)
Definition remove_everywhere (marked : gset A) : gset A :=
  foldr classList_remove marked (elements marked).
End ClassList.

Definition set_cells (cells : gset Coord) (st : Selection) : Selection :=
  mkSelection cells (cabecalho_selecionado st) (indicador_selecionado st)
              (lastClickedCoords st) (startCellCoords st) (isMouseDown st).

Definition set_cabecalhos (cols : gset Z) (st : Selection) : Selection :=
  mkSelection (cell_selecionada st) cols (indicador_selecionado st)
              (lastClickedCoords st) (startCellCoords st) (isMouseDown st).

Definition set_indicadores (rows : gset Z) (st : Selection) : Selection :=
  mkSelection (cell_selecionada st) (cabecalho_selecionado st) rows
              (lastClickedCoords st) (startCellCoords st) (isMouseDown st).

Definition set_lastClicked (a : option Clicked) (st : Selection) : Selection :=
  mkSelection (cell_selecionada st) (cabecalho_selecionado st) (indicador_selecionado st)
              a (startCellCoords st) (isMouseDown st).

Definition set_startCell (c : option Coord) (st : Selection) : Selection :=
  mkSelection (cell_selecionada st) (cabecalho_selecionado st) (indicador_selecionado st)
              (lastClickedCoords st) c (isMouseDown st).

Definition setIsMouseDown (b : bool) (st : Selection) : Selection :=
  mkSelection (cell_selecionada st) (cabecalho_selecionado st) (indicador_selecionado st)
              (lastClickedCoords st) (startCellCoords st) b.

(** [clearSelection], called with the table mounted. *)
Definition clearSelection (st : Selection) : Selection :=
  mkSelection (remove_everywhere (cell_selecionada st))
              (remove_everywhere (cabecalho_selecionado st))
              (remove_everywhere (indicador_selecionado st))
              None (startCellCoords st) (isMouseDown st).

(** [lastClickedCoords.current?.type === t] *)
Definition lastClicked_is (t : ClickType) (st : Selection) : bool :=
  match lastClickedCoords st with
  | Some a => bool_decide (clicked_type a = t)
  | None => false
  end.

Section Handlers.
Variable tbl : Table.

Definition inRange (minRow maxRow minCol maxCol : Z) (c : Coord) : bool :=
  (minRow <=? row c) && (row c <=? maxRow) && (minCol <=? col c) && (col c <=? maxCol).

(** [selectCellsInRange] *)
Definition selectCellsInRange (start finish : Coord) (st : Selection) : Selection :=
  let minRow := Z.min (row start) (row finish) in
  let maxRow := Z.max (row start) (row finish) in
  let minCol := Z.min (col start) (col finish) in
  let maxCol := Z.max (col start) (col finish) in
  set_cells
    (foldl (fun marked cell =>
              classList_toggle_force cell (inRange minRow maxRow minCol maxCol cell) marked)
           (cell_selecionada st) (planilha_valor tbl))
    st.

(** [handleCellMouseDown]; [target] is [getCellCoords(e.currentTarget)]. *)
Definition handleCellMouseDown (e : MouseEvent) (target : Coord) (st : Selection)
  : Completion :=
  let st := setIsMouseDown true st in
  if ctrlKey e || metaKey e then
    Returned (set_startCell (Some target)
                (set_lastClicked (Some (mkClicked target type_cell))
                   (set_cells (classList_toggle target (cell_selecionada st)) st)))
  else if shiftKey e && lastClicked_is type_cell st then
    let st := clearSelection st in
    match lastClickedCoords st with
    | Some a => Returned (set_startCell (Some target)
                            (selectCellsInRange (clicked_at a) target st))
    | None => Thrown st   (* [start.row] is read on null *)
    end
  else
    let st := clearSelection st in
    Returned (set_startCell (Some target)
                (set_lastClicked (Some (mkClicked target type_cell))
                   (set_cells (classList_add target (cell_selecionada st)) st))).

(** [handleCellMouseOver] *)
Definition handleCellMouseOver (target : Coord) (st : Selection) : Selection :=
  match isMouseDown st, startCellCoords st with
  | true, Some start => selectCellsInRange start target st
  | _, _ => st
  end.

(** [querySelectorAll(`td[data-col="${i}"].planilha-valor`)] *)
Definition cellsInCol (i : Z) : list Coord :=
  List.filter (fun c => col c =? i) (planilha_valor tbl).

(** The [.planilha-valor] cells of the row whose header is at [data-row] [i]. *)
Definition cellsInRow (i : Z) : list Coord :=
  List.filter (fun c => row c =? i) (planilha_valor tbl).

Definition add_cells (cells : list Coord) (st : Selection) : Selection :=
  set_cells (foldl (fun marked c => classList_add c marked) (cell_selecionada st) cells) st.

Definition toggle_cells (cells : list Coord) (st : Selection) : Selection :=
  set_cells (foldl (fun marked c => classList_toggle c marked) (cell_selecionada st) cells) st.

(** One turn of the loop over columns: the header, when there is one at
    that index, then the column's cells. *)
Definition mark_col (st : Selection) (i : Z) : Selection :=
  let st := if bool_decide (i ∈ cabecalho_ano tbl)
            then set_cabecalhos (classList_add i (cabecalho_selecionado st)) st
            else st in
  add_cells (cellsInCol i) st.

Definition mark_row (st : Selection) (i : Z) : Selection :=
  let st := if bool_decide (i ∈ indicador_col tbl)
            then set_indicadores (classList_add i (indicador_selecionado st)) st
            else st in
  add_cells (cellsInRow i) st.

(** [handleColHeaderClick] *)
Definition handleColHeaderClick (e : MouseEvent) (colIndex : Z) (st : Selection)
  : Selection :=
  let allCellsInCol := cellsInCol colIndex in
  let st := if negb (ctrlKey e) && negb (shiftKey e) then clearSelection st else st in
  if ctrlKey e || metaKey e then
    set_lastClicked (Some (mkClicked (-1, colIndex) type_col))
      (toggle_cells allCellsInCol
         (set_cabecalhos (classList_toggle colIndex (cabecalho_selecionado st)) st))
  else if shiftKey e && lastClicked_is type_col st then
    let prevColIdx := match lastClickedCoords st with
                      | Some a => col (clicked_at a)
                      | None => colIndex
                      end in
    let minCol := Z.min prevColIdx colIndex in
    let maxCol := Z.max prevColIdx colIndex in
    foldl mark_col (clearSelection st) (seqZ minCol (maxCol - minCol + 1))
  else
    let st := clearSelection st in
    set_lastClicked (Some (mkClicked (-1, colIndex) type_col))
      (add_cells allCellsInCol
         (set_cabecalhos (classList_add colIndex (cabecalho_selecionado st)) st)).

(** [handleRowHeaderClick] *)
Definition handleRowHeaderClick (e : MouseEvent) (rowIndex : Z) (st : Selection)
  : Selection :=
  let allCellsInRow := cellsInRow rowIndex in
  let st := if negb (ctrlKey e) && negb (shiftKey e) then clearSelection st else st in
  if ctrlKey e || metaKey e then
    set_lastClicked (Some (mkClicked (rowIndex, -1) type_row))
      (toggle_cells allCellsInRow
         (set_indicadores (classList_toggle rowIndex (indicador_selecionado st)) st))
  else if shiftKey e && lastClicked_is type_row st then
    let prevRowIdx := match lastClickedCoords st with
                      | Some a => row (clicked_at a)
                      | None => rowIndex
                      end in
    let minRow := Z.min prevRowIdx rowIndex in
    let maxRow := Z.max prevRowIdx rowIndex in
    foldl mark_row (clearSelection st) (seqZ minRow (maxRow - minRow + 1))
  else
    let st := clearSelection st in
    set_lastClicked (Some (mkClicked (rowIndex, -1) type_row))
      (add_cells allCellsInRow
         (set_indicadores (classList_add rowIndex (indicador_selecionado st)) st)).

(** The document-level [mouseup] listener. *)
Definition handleMouseUp (st : Selection) : Selection := setIsMouseDown false st.

End Handlers.

(** ** The dashboard page: component state and its handlers *)

(** The [useState] cells of [DashboardPage], the calls made on the router,
    and the selection carried by the table and the refs. A handler that only
    sets component state writes no class and no ref: it leaves [selection]
    as it is. What the render that follows does to the marks, which sit on
    the table's nodes, is [commit] below. *)
Record View := mkView {
  initialLoading : bool;
  currentTabLoading : bool;
  data : option (list SheetDataItem);
  error : string;
  sheetTabs : list string;
  selectedTab : string;
  availableYears : list Z;
  selectedYears : list Z;
  showAnosDropdown : bool;
  navigation : list string;     (* router.replace targets, latest first *)
  selection : Selection
}.

Definition mount : View :=
  mkView true false None "" [] "" [] [] false [] (mkSelection ∅ ∅ ∅ None None false).

Definition unauthorized_message : string :=
  "Sessão expirada ou não autorizada. Faça login novamente.".

(** [err.response && err.response.status === 401] *)
Definition is_401 (err : AxiosError) : bool :=
  match response_status err with
  | Some s => s =? 401
  | None => false
  end.

(** [err.message || 'Unknown error.'] *)
Definition message_or_unknown (err : AxiosError) : string :=
  match message err with
  | Some m => if String.eqb m "" then "Unknown error." else m
  | None => "Unknown error."
  end.

(** [loadSheetsData], up to the [await]. The flag tells whether a request
    went out. *)
Definition loadSheetsData_begin (tabName : string) (v : View) : View * bool :=
  if String.eqb tabName "" then (v, false)
  else (mkView (initialLoading v) true (data v) "" (sheetTabs v) (selectedTab v)
               (availableYears v) (selectedYears v) (showAnosDropdown v)
               (navigation v) (selection v), true).

(** [loadSheetsData], from the [await] on: the [try] body, the [catch] and
    the [finally]. The closure still holds [tabName] and does not read it. *)
Definition loadSheetsData_settled (tabName : string) (o : FetchOutcome) (v : View) : View :=
  match o with
  | Fulfilled sheetsData =>
      let years := if (0 <? length sheetsData)%nat then yearsOf sheetsData else [] in
      mkView (initialLoading v) false (Some sheetsData) (error v) (sheetTabs v)
             (selectedTab v) years years (showAnosDropdown v) (navigation v) (selection v)
  | Rejected err =>
      if is_401 err then
        mkView (initialLoading v) false (data v) unauthorized_message (sheetTabs v)
               (selectedTab v) (availableYears v) (selectedYears v) (showAnosDropdown v)
               ("/login"%string :: navigation v) (selection v)
      else
        mkView (initialLoading v) false (data v)
               ("Erro ao carregar dados da aba: " +:+ message_or_unknown err)
               (sheetTabs v) (selectedTab v) (availableYears v) (selectedYears v)
               (showAnosDropdown v) (navigation v) (selection v)
  end.

(** [handleTabChange] *)
Definition handleTabChange (value : string) (v : View) : View :=
  mkView (initialLoading v) (currentTabLoading v) (data v) (error v) (sheetTabs v)
         value (availableYears v) (selectedYears v) (showAnosDropdown v)
         (navigation v) (selection v).

(** [toggleAnosDropdown] *)
Definition toggleAnosDropdown (v : View) : View :=
  mkView (initialLoading v) (currentTabLoading v) (data v) (error v) (sheetTabs v)
         (selectedTab v) (availableYears v) (selectedYears v) (negb (showAnosDropdown v))
         (navigation v) (selection v).

(** The [onClick] of the error screen's button: [router.replace('/login')]. *)
Definition errorScreen_onClick (v : View) : View :=
  mkView (initialLoading v) (currentTabLoading v) (data v) (error v) (sheetTabs v)
         (selectedTab v) (availableYears v) (selectedYears v) (showAnosDropdown v)
         ("/login"%string :: navigation v) (selection v).

(** [handleYearToggle] *)
Definition handleYearToggle (year : Z) (v : View) : View :=
  let prev := selectedYears v in
  let newSelection :=
    if includes prev year
    then List.filter (fun y => negb (y =? year)) prev
    else sort ascending (prev ++ [year]) in
  mkView (initialLoading v) (currentTabLoading v) (data v) (error v) (sheetTabs v)
         (selectedTab v) (availableYears v) newSelection (showAnosDropdown v)
         (navigation v) (selection v).

(** [handleToggleAllYears]; [availableYears.sort] sorts the state array in
    place and hands the same array to [setSelectedYears]. *)
Definition handleToggleAllYears (checkAll : bool) (v : View) : View :=
  if checkAll then
    let sorted := sort ascending (availableYears v) in
    mkView (initialLoading v) (currentTabLoading v) (data v) (error v) (sheetTabs v)
           (selectedTab v) sorted sorted (showAnosDropdown v) (navigation v) (selection v)
  else
    mkView (initialLoading v) (currentTabLoading v) (data v) (error v) (sheetTabs v)
           (selectedTab v) (availableYears v) [] (showAnosDropdown v)
           (navigation v) (selection v).

(** How [fetchSheetTabs] settles. *)
Inductive TabsOutcome :=
| TabsFulfilled (tabs : list string)
| TabsRejected (err : AxiosError).

(** [initializeDashboard], from the [await] on. *)
Definition initializeDashboard_settled (o : TabsOutcome) (v : View) : View :=
  match o with
  | TabsFulfilled tabs =>
      match tabs with
      | initialTab :: _ =>
          mkView false (currentTabLoading v) (data v) (error v) tabs initialTab
                 (availableYears v) (selectedYears v) (showAnosDropdown v)
                 (navigation v) (selection v)
      | [] =>
          mkView false (currentTabLoading v) (Some []) (error v) tabs (selectedTab v)
                 [] [] (showAnosDropdown v) (navigation v) (selection v)
      end
  | TabsRejected err =>
      if is_401 err then
        mkView false (currentTabLoading v) (data v) unauthorized_message (sheetTabs v)
               (selectedTab v) (availableYears v) (selectedYears v) (showAnosDropdown v)
               ("/login"%string :: navigation v) (selection v)
      else
        mkView false (currentTabLoading v) (data v)
               ("Erro ao inicializar o dashboard: " +:+ message_or_unknown err)
               (sheetTabs v) (selectedTab v) (availableYears v) (selectedYears v)
               (showAnosDropdown v) (navigation v) (selection v)
  end.

(** The effect with dependencies [selectedTab, initialLoading, loadSheetsData]:
    it runs after a render in which one of the first two changed. Returns the
    requests it sent. *)
Definition tabEffect (prev next : View) : View * list string :=
  if negb (String.eqb (selectedTab prev) (selectedTab next))
     || negb (Bool.eqb (initialLoading prev) (initialLoading next))
  then
    if negb (String.eqb (selectedTab next) "") && negb (initialLoading next)
    then let '(v, sent) := loadSheetsData_begin (selectedTab next) next in
         (v, if sent then [selectedTab next] else [])
    else (next, [])
  else (next, []).

(** ** What is on screen *)

(** The early returns of the render: neither the loading nor the error
    screen. *)
Definition pageRendered (v : View) : bool :=
  negb (initialLoading v) && String.eqb (error v) "".

(** [showNoDataMessage] *)
Definition showNoDataMessage (v : View) : bool :=
  match filteredData (data v) (selectedYears v) with
  | None | Some [] => true
  | Some (_ :: _) => false
  end.

(** [tableRef.current] is set. *)
Definition tableMounted (v : View) : bool :=
  pageRendered v && negb (showNoDataMessage v).

(** The tab selector is rendered and not [disabled]. *)
Definition selectorEnabled (v : View) : bool :=
  pageRendered v && (0 <? length (sheetTabs v))%nat && negb (currentTabLoading v).

(** [data?.find(d => d.ano === year)] finds a record. *)
Definition has_record (v : View) (year : Z) : bool :=
  match data v with
  | Some rows => existsb (fun d => match ano d with
                                    | AnoNumber y => y =? year
                                    | _ => false
                                    end) rows
  | None => false
  end.

(** The table the render produces. *)
Definition renderTable (v : View) : Table :=
  let headers := tableHeaders (filteredData (data v) (selectedYears v)) in
  let rowIndices := seqZ 0 (Z.of_nat (length headers)) in
  let colIndices := seqZ 0 (Z.of_nat (length (selectedYears v))) in
  mkTable
    (flat_map (fun rowIndex =>
                 flat_map (fun colIndex =>
                             match selectedYears v !! Z.to_nat colIndex with
                             | Some year => if has_record v year then [(rowIndex, colIndex)] else []
                             | None => []
                             end) colIndices) rowIndices)
    colIndices rowIndices.

(** Where a [mousedown] on the document lands. *)
Inductive Target := InTable | InDropdown | Elsewhere.

(** [tableRef.current.contains(event.target)] *)
Definition in_table (t : Target) : bool :=
  match t with InTable => true | _ => false end.

(** [dropdownContainerRef.current.contains(event.target)] *)
Definition in_dropdown (t : Target) : bool :=
  match t with InDropdown => true | _ => false end.

Definition with_selection (s : Selection) (v : View) : View :=
  mkView (initialLoading v) (currentTabLoading v) (data v) (error v) (sheetTabs v)
         (selectedTab v) (availableYears v) (selectedYears v) (showAnosDropdown v)
         (navigation v) s.

(** [handleClickOutside] *)
Definition handleClickOutside (target : Target) (v : View) : View :=
  let dropdownMounted := pageRendered v && (0 <? length (availableYears v))%nat in
  let closeDropdown := dropdownMounted && negb (in_dropdown target) in
  let clear := tableMounted v && negb (in_table target) in
  mkView (initialLoading v) (currentTabLoading v) (data v) (error v) (sheetTabs v)
         (selectedTab v) (availableYears v) (selectedYears v)
         (if closeDropdown then false else showAnosDropdown v)
         (navigation v)
         (if clear then clearSelection (selection v) else selection v).

(** The error screen is what the render returns. *)
Definition errorScreen (v : View) : bool :=
  negb (initialLoading v) && negb (String.eqb (error v) "").

(** The button of the years dropdown is rendered. *)
Definition dropdownMounted (v : View) : bool :=
  pageRendered v && (0 <? length (availableYears v))%nat.

(** ** What a render does to the marks *)

(** The marks are class names the handlers put on the table's nodes; the
    [className] the render gives those nodes never changes, so a mark stays
    on its node for as long as the node is kept. React keeps a node by its
    key: a column header by its year, a row by its header, a cell by its
    header and year. A node that is kept is found again at the indices the
    new render writes into its data attributes; a node that is not kept
    takes its mark with it, and so does the whole table when the banner or
    the error screen replaces it. The refs and [isMouseDown] are no part of
    the table. With a key that occurs twice among the years React's choice
    is open; the first occurrence is taken here. *)

(** [tableHeaders], as the render maps over it. *)
Definition shownHeaders (v : View) : list string :=
  tableHeaders (filteredData (data v) (selectedYears v)).

Definition at_index {A : Type} (l : list A) (i : Z) : option A :=
  if 0 <=? i then l !! Z.to_nat i else None.

Fixpoint position {A : Type} (same : A -> A -> bool) (x : A) (l : list A) : option Z :=
  match l with
  | [] => None
  | y :: rest => if same x y then Some 0 else option_map Z.succ (position same x rest)
  end.

(** Where the column header at [data-col] [i] is after the render. *)
Definition kept_col (prev next : View) (i : Z) : option Z :=
  match at_index (selectedYears prev) i with
  | Some year => position Z.eqb year (selectedYears next)
  | None => None
  end.

(** Where the row header at [data-row] [i] is after the render. *)
Definition kept_row (prev next : View) (i : Z) : option Z :=
  match at_index (shownHeaders prev) i with
  | Some header => position String.eqb header (shownHeaders next)
  | None => None
  end.

(** Where the value cell at [c] is after the render: in its row and under
    its year, if it was and still is a value cell. *)
Definition kept_cell (prev next : View) (c : Coord) : option Coord :=
  match kept_row prev next (row c), kept_col prev next (col c),
        at_index (selectedYears prev) (col c) with
  | Some r, Some k, Some year =>
      if has_record prev year && has_record next year then Some (r, k) else None
  | _, _, _ => None
  end.

(** The marks of the kept nodes, at their new indices. *)
Definition moved {A B : Type} `{Countable A} `{Countable B}
    (kept : A -> option B) (marked : gset A) : gset B :=
  list_to_set (omap kept (elements marked)).

Definition commit_marks (prev next : View) (sel : Selection) : Selection :=
  if tableMounted prev && tableMounted next then
    mkSelection (moved (kept_cell prev next) (cell_selecionada sel))
                (moved (kept_col prev next) (cabecalho_selecionado sel))
                (moved (kept_row prev next) (indicador_selecionado sel))
                (lastClickedCoords sel) (startCellCoords sel) (isMouseDown sel)
  else
    mkSelection ∅ ∅ ∅ (lastClickedCoords sel) (startCellCoords sel) (isMouseDown sel).

(** The page after the render that takes it from [prev] to [next]. *)
Definition commit (prev next : View) : View :=
  with_selection (commit_marks prev next (selection next)) next.

(** ** The page as a transition system: one event at a time *)

(** The events are those that write to the state modelled here. Renders
    that change neither the records, the selected years nor which screen is
    shown keep every node of the table, and are left implicit. The logout
    button only calls [router.push], which [navigation] does not record. *)

Record System := mkSystem {
  view : View;
  tabsRequest : bool;       (* [fetchSheetTabs] has not settled yet *)
  pending : list string     (* tabs whose [fetchSheetsData] has not settled yet *)
}.

Definition boot : System := mkSystem mount true [].

Definition rerender (prev next : View) (s : System) : System :=
  let '(v, sent) := tabEffect prev next in
  mkSystem v (tabsRequest s) (pending s ++ sent).

Inductive step : System -> System -> Prop :=
| step_tabs_settled s o :
    tabsRequest s = true ->
    step s (rerender (view s) (initializeDashboard_settled o (view s))
                     (mkSystem (view s) false (pending s)))
| step_tab_change s value :
    selectorEnabled (view s) = true ->
    In value (sheetTabs (view s)) ->
    step s (rerender (view s) (handleTabChange value (view s)) s)
| step_data_settled s before tab after o :
    pending s = before ++ tab :: after ->
    step s (mkSystem (commit (view s) (loadSheetsData_settled tab o (view s)))
                     (tabsRequest s) (before ++ after))
| step_year_toggle s year :
    pageRendered (view s) = true ->
    In year (availableYears (view s)) ->
    step s (mkSystem (commit (view s) (handleYearToggle year (view s)))
                     (tabsRequest s) (pending s))
| step_toggle_all s checkAll :
    pageRendered (view s) = true ->
    step s (mkSystem (commit (view s) (handleToggleAllYears checkAll (view s)))
                     (tabsRequest s) (pending s))
| step_dropdown_toggle s :
    dropdownMounted (view s) = true ->
    step s (mkSystem (toggleAnosDropdown (view s)) (tabsRequest s) (pending s))
| step_error_login_click s :
    errorScreen (view s) = true ->
    step s (mkSystem (errorScreen_onClick (view s)) (tabsRequest s) (pending s))
| step_mousedown s target :
    step s (mkSystem (handleClickOutside target (view s)) (tabsRequest s) (pending s))
| step_mouseup s :
    step s (mkSystem (with_selection (handleMouseUp (selection (view s))) (view s))
                     (tabsRequest s) (pending s))
| step_cell_mousedown s e target :
    tableMounted (view s) = true ->
    In target (planilha_valor (renderTable (view s))) ->
    step s (mkSystem (with_selection
                        (state_of (handleCellMouseDown (renderTable (view s)) e target
                                                       (selection (view s))))
                        (view s))
                     (tabsRequest s) (pending s))
| step_cell_mouseover s target :
    tableMounted (view s) = true ->
    In target (planilha_valor (renderTable (view s))) ->
    step s (mkSystem (with_selection
                        (handleCellMouseOver (renderTable (view s)) target (selection (view s)))
                        (view s))
                     (tabsRequest s) (pending s))
| step_col_header s e colIndex :
    tableMounted (view s) = true ->
    In colIndex (cabecalho_ano (renderTable (view s))) ->
    step s (mkSystem (with_selection
                        (handleColHeaderClick (renderTable (view s)) e colIndex
                                              (selection (view s)))
                        (view s))
                     (tabsRequest s) (pending s))
| step_row_header s e rowIndex :
    tableMounted (view s) = true ->
    In rowIndex (indicador_col (renderTable (view s))) ->
    step s (mkSystem (with_selection
                        (handleRowHeaderClick (renderTable (view s)) e rowIndex
                                              (selection (view s)))
                        (view s))
                     (tabsRequest s) (pending s)).

Inductive reachable : System -> Prop :=
| reachable_boot : reachable boot
| reachable_step s s' : reachable s -> step s s' -> reachable s'.

(** ** Predicates used in the statements *)

(** The year is absent, null or zero. *)
Definition falsy_ano (a : Ano) : Prop :=
  a = AnoAbsent \/ a = AnoNull \/ a = AnoNumber 0.

(** ** Sample data: two tabs, [2023] and [2024]; the records of [2024] come
    back for the years 2024, 2022, 2023, in that order *)

Definition sample_item (y : Z) (receita custos : Q) : SheetDataItem :=
  mkItem (AnoNumber y)
         [("Receita"%string, JNumber receita); ("Custos"%string, JNumber custos)]
         (Some [("Custos"%string, (-40 # 1)%Q)]).

Definition sample_rows : list SheetDataItem :=
  [sample_item 2024 300 (-120); sample_item 2022 100 (-12345 # 10); sample_item 2023 200 (-80)].

Definition sample_tabs : list string := ["2023"; "2024"]%string.

(** The tab list has arrived and the first tab is selected. *)
Definition sample_initialized : View :=
  initializeDashboard_settled (TabsFulfilled sample_tabs) mount.

(** The records of tab [2024] are on screen, every year selected. *)
Definition sample_loaded : View :=
  loadSheetsData_settled "2024" (Fulfilled sample_rows)
    (fst (loadSheetsData_begin "2024" (handleTabChange "2024" sample_initialized))).

Definition plain_click : MouseEvent := mkEvent false false false.
Definition shift_click : MouseEvent := mkEvent false false true.
Definition ctrl_click : MouseEvent := mkEvent true false false.


Definition unauthorized : AxiosError := mkError (Some 401) None.

(** [lastClickedCoords.current?.type], when there is an anchor. *)
Definition anchorKind (st : Selection) : option ClickType :=
  match lastClickedCoords st with
  | Some a => Some (clicked_type a)
  | None => None
  end.

(** Inside the rectangle spanned by two corners. *)
Definition in_rectangle (a b c : Coord) : Prop :=
  Z.min (row a) (row b) <= row c <= Z.max (row a) (row b)
  /\ Z.min (col a) (col b) <= col c <= Z.max (col a) (col b).

(** A small rendered table, three rows by three columns. *)
Definition sample_table : Table :=
  mkTable [(0,0); (0,1); (0,2); (1,0); (1,1); (1,2); (2,0); (2,1); (2,2)] [0; 1; 2] [0; 1; 2].

(** Column 1 was clicked last. *)
Definition sample_after_col : Selection :=
  handleColHeaderClick sample_table plain_click 1 (mkSelection ∅ ∅ ∅ None None false).

(** The cell at row 2, column 0 was pressed last. *)
Definition sample_after_cell : Selection :=
  state_of (handleCellMouseDown sample_table plain_click (2, 0)
                                (mkSelection ∅ ∅ ∅ None None false)).

(** The page right after the tab list arrived: the first tab is selected and
    its records are being fetched. *)
Definition sample_system : System :=
  rerender (view boot) (initializeDashboard_settled (TabsFulfilled sample_tabs) (view boot))
           (mkSystem (view boot) false (pending boot)).

(** What holds of the requests in every state the page can reach. *)
Definition requests_invariant (s : System) : Prop :=
  (tabsRequest s = true ->
     pending s = [] /\ initialLoading (view s) = true
     /\ currentTabLoading (view s) = false /\ selectedTab (view s) = ""%string)
  /\ (pending s = []
      \/ (pending s = [selectedTab (view s)] /\ currentTabLoading (view s) = true))
  /\ (currentTabLoading (view s) = false -> pending s = []).

(** A change of what the grid shows: of the selected years, of the tab, of
    the records. *)
Inductive Change :=
| ChangeYear (year : Z)
| ChangeAllYears (checkAll : bool)
| ChangeTab (value : string)
| ChangeRecords (tab : string) (o : FetchOutcome).

Definition change (ch : Change) (v : View) : View :=
  match ch with
  | ChangeYear year => handleYearToggle year v
  | ChangeAllYears checkAll => handleToggleAllYears checkAll v
  | ChangeTab value => fst (tabEffect v (handleTabChange value v))
  | ChangeRecords tab o => loadSheetsData_settled tab o v
  end.

(** The page once the change is on screen. *)
Definition after_change (ch : Change) (v : View) : View := commit v (change ch v).

(** One year selected, 2023, and its cell at row 0 marked. *)
Definition sample_one_year : View :=
  let v := handleYearToggle 2024 (handleYearToggle 2022 sample_loaded) in
  with_selection
    (state_of (handleCellMouseDown (renderTable v) plain_click (0, 0) (selection v))) v.

(** ** Further predicates *)

(** What holds of the two year lists in every state the page can reach. *)
Definition years_invariant (v : View) : Prop :=
  availableYears v = match data v with Some rows => yearsOf rows | None => [] end
  /\ Sorted Z.le (selectedYears v)
  /\ (forall y, In y (selectedYears v) -> In y (availableYears v)).

(** The page with the records of the first tab on screen. *)
Definition sample_system_ready : System :=
  mkSystem (commit (view sample_system)
                   (loadSheetsData_settled "2023" (Fulfilled sample_rows) (view sample_system)))
           (tabsRequest sample_system) ([] ++ []).

(** Row 0 was clicked last. *)
Definition sample_after_row : Selection :=
  handleRowHeaderClick sample_table plain_click 0 (mkSelection ∅ ∅ ∅ None None false).

(** The page after the records request of the first tab was refused. *)
Definition sample_system_refused : System :=
  mkSystem (commit (view sample_system)
                   (loadSheetsData_settled "2023" (Rejected unauthorized) (view sample_system)))
           (tabsRequest sample_system) ([] ++ []).

(** What holds of the error message in every state the page can reach. *)
Definition error_invariant (s : System) : Prop :=
  (tabsRequest s = true -> error (view s) = ""%string)
  /\ (tabsRequest s = false -> initialLoading (view s) = false)
  /\ (error (view s) <> ""%string -> pending s = [] /\ tabsRequest s = false)
  /\ (error (view s) = ""%string -> navigation (view s) = [])
  /\ (forall target, In target (navigation (view s)) -> target = "/login"%string).

(** Two views hold the same session: they differ at most in the selection,
    in whether the years dropdown is open, and in the navigations made. *)
Definition same_session (v v' : View) : Prop :=
  initialLoading v' = initialLoading v
  /\ currentTabLoading v' = currentTabLoading v
  /\ data v' = data v
  /\ error v' = error v
  /\ sheetTabs v' = sheetTabs v
  /\ selectedTab v' = selectedTab v
  /\ availableYears v' = availableYears v
  /\ selectedYears v' = selectedYears v.

(** * Properties *)

(** ** Sorting with [(a, b) => a - b] *)

Lemma sort_insert_perm x l : Permutation (x :: l) (sort_insert ascending x l).
Proof.
  induction l as [|y l IH]; simpl; [reflexivity|].
  destruct (ascending x y <=? 0); [reflexivity|].
  rewrite perm_swap. now apply perm_skip.
Qed.

Lemma sort_perm l : Permutation l (sort ascending l).
Proof.
  induction l as [|x l IH]; simpl; [constructor|].
  rewrite <- sort_insert_perm. now apply perm_skip.
Qed.

Lemma sort_insert_sorted x l :
  Sorted Z.le l -> Sorted Z.le (sort_insert ascending x l).
Proof.
  induction l as [|y l IH]; simpl; intros Hs.
  - repeat constructor.
  - unfold ascending at 1. destruct (Z.leb_spec (x - y) 0) as [Hle|Hgt].
    + constructor; [assumption|]. constructor. lia.
    + apply Sorted_inv in Hs as [Hs Hhd]. constructor; [now apply IH|].
      destruct l as [|z l]; simpl.
      * constructor. lia.
      * destruct (ascending x z <=? 0); constructor; [lia|].
        now apply HdRel_inv in Hhd.
Qed.

Lemma sort_sorted l : Sorted Z.le (sort ascending l).
Proof.
  induction l as [|x l IH]; simpl; [constructor|]. now apply sort_insert_sorted.
Qed.

Lemma sort_of_permutation l l' :
  Permutation l l' -> sort ascending l = sort ascending l'.
Proof.
  intros Hp. apply (Sorted_unique Z.le); try apply sort_sorted.
  now rewrite <- !sort_perm.
Qed.

Lemma sort_In y l : In y (sort ascending l) <-> In y l.
Proof.
  split; apply Permutation_in; [symmetry|]; apply sort_perm.
Qed.

(** ** Years of a record set *)

Lemma ano_truthy_false a : ano_truthy a = false <-> falsy_ano a.
Proof.
  unfold falsy_ano. destruct a as [| |y]; simpl.
  - intuition.
  - intuition.
  - destruct (Z.eqb_spec y 0) as [-> | Hy]; simpl.
    + intuition.
    + split; [discriminate|]. intros [H|[H|H]]; try discriminate. congruence.
Qed.

Lemma filter_Boolean_In y anos :
  In y (filter_Boolean anos) <-> In (AnoNumber y) anos /\ y <> 0.
Proof.
  induction anos as [|a anos IH]; simpl; [tauto|].
  destruct a as [| |z]; try (rewrite IH; intuition discriminate).
  destruct (Z.eqb_spec z 0) as [-> | Hz]; simpl; rewrite IH.
  - split; [tauto|]. intros [[Heq|Hin] Hy]; [congruence|tauto].
  - split.
    + intros [-> | [Hin Hy]]; tauto.
    + intros [[Heq|Hin] Hy]; [left; congruence|tauto].
Qed.

Lemma filter_Boolean_app l1 l2 :
  filter_Boolean (l1 ++ l2) = filter_Boolean l1 ++ filter_Boolean l2.
Proof.
  induction l1 as [|a l1 IH]; simpl; [reflexivity|].
  destruct a as [| |z]; try assumption.
  destruct (z =? 0); simpl; now rewrite IH.
Qed.

Lemma filter_Boolean_falsy a l : falsy_ano a -> filter_Boolean (a :: l) = filter_Boolean l.
Proof. intros [-> | [-> | ->]]; reflexivity. Qed.

Lemma filter_Boolean_perm l l' :
  Permutation l l' -> Permutation (filter_Boolean l) (filter_Boolean l').
Proof.
  induction 1 as [|a l l' Hp IH|a b l|l1 l2 l3 H1 IH1 H2 IH2]; simpl.
  - constructor.
  - destruct a as [| |z]; try assumption. destruct (z =? 0); [assumption|now constructor].
  - destruct a as [| |z], b as [| |w]; try reflexivity;
      try destruct (z =? 0); try destruct (w =? 0); try reflexivity.
    apply perm_swap.
  - now transitivity (filter_Boolean l2).
Qed.

Lemma filter_Boolean_length rows :
  length (filter_Boolean (List.map ano rows))
  = length (List.filter (fun item => ano_truthy (ano item)) rows).
Proof.
  induction rows as [|item rows IH]; simpl; [reflexivity|].
  destruct (ano item) as [| |y]; simpl; try assumption.
  destruct (y =? 0); simpl; congruence.
Qed.

Lemma yearsOf_In y rows :
  In y (yearsOf rows) <-> (exists item, In item rows /\ ano item = AnoNumber y) /\ y <> 0.
Proof.
  unfold yearsOf. rewrite sort_In, filter_Boolean_In, in_map_iff.
  split; intros [[item Hitem] Hy]; (split; [|assumption]); exists item; intuition.
Qed.

Lemma yearsOf_perm rows rows' : Permutation rows rows' -> yearsOf rows = yearsOf rows'.
Proof.
  intros Hp. unfold yearsOf. apply sort_of_permutation, filter_Boolean_perm.
  now apply Permutation_map.
Qed.

Lemma loaded_years tab rows v :
  availableYears (loadSheetsData_settled tab (Fulfilled rows) v) = yearsOf rows
  /\ selectedYears (loadSheetsData_settled tab (Fulfilled rows) v) = yearsOf rows.
Proof. destruct rows; simpl; split; reflexivity. Qed.

(** C7: once the records of a tab have loaded and there is at least one,
    the available years are the years of those records in ascending order,
    the selected years are that same full list, and neither depends on the
    order the records came in or on the view (and so the selection of years)
    that was there before. *)
Theorem loaded_years_are_the_ascending_full_range
  (tab : string) (rows : list SheetDataItem) (v : View) :
  rows <> [] ->
  let v' := loadSheetsData_settled tab (Fulfilled rows) v in
  Sorted Z.le (availableYears v')
  /\ (forall y, In y (availableYears v') <->
                (exists item, In item rows /\ ano item = AnoNumber y) /\ y <> 0)
  /\ length (availableYears v')
     = length (List.filter (fun item => ano_truthy (ano item)) rows)
  /\ selectedYears v' = availableYears v'
  /\ (forall tab2 rows2 v2,
         Permutation rows rows2 ->
         availableYears (loadSheetsData_settled tab2 (Fulfilled rows2) v2) = availableYears v'
         /\ selectedYears (loadSheetsData_settled tab2 (Fulfilled rows2) v2) = selectedYears v').
Proof.
  intros _ v'. subst v'.
  destruct (loaded_years tab rows v) as [E1 E2]. rewrite E1, E2.
  split; [apply sort_sorted|].
  split; [intros y; apply yearsOf_In|].
  split.
  { unfold yearsOf. rewrite <- (Permutation_length (sort_perm _)).
    apply filter_Boolean_length. }
  split; [reflexivity|].
  intros tab2 rows2 v2 Hp.
  destruct (loaded_years tab2 rows2 v2) as [E3 E4]. rewrite E3, E4.
  rewrite (yearsOf_perm _ _ Hp). split; reflexivity.
Qed.

Lemma loaded_years_scenario :
  availableYears sample_loaded = [2022; 2023; 2024]
  /\ selectedYears sample_loaded = [2022; 2023; 2024].
Proof. split; reflexivity. Qed.

Lemma loaded_years_witness :
  sample_rows <> []
  /\ Sorted Z.le (availableYears sample_loaded)
  /\ selectedYears sample_loaded = availableYears sample_loaded.
Proof.
  split; [discriminate|].
  pose proof (loaded_years_are_the_ascending_full_range
                "2024" sample_rows
                (fst (loadSheetsData_begin "2024" (handleTabChange "2024" sample_initialized))))
    as H.
  destruct H as (Hs & _ & _ & He & _); [discriminate|].
  split; [exact Hs | exact He].
Defined.

(** ** Filtering by year *)

Lemma filteredData_In rows sel filtered r :
  filteredData (Some rows) sel = Some filtered ->
  In r filtered ->
  In r rows /\ exists y, ano r = AnoNumber y /\ y <> 0 /\ In y sel.
Proof.
  unfold filteredData. destruct (length sel =? 0)%nat.
  - intros [= <-] [].
  - intros [= <-] Hin. apply filter_In in Hin as [Hin Hp]. split; [assumption|].
    unfold year_is_selected in Hp. destruct (ano r) as [| |y]; try discriminate.
    apply andb_prop in Hp as [Hy Hinc]. exists y. split; [reflexivity|].
    split.
    + intros ->. discriminate.
    + unfold includes in Hinc. apply existsb_exists in Hinc as (z & Hz & Hzy).
      apply Z.eqb_eq in Hzy. now subst.
Qed.

(** C10: a record whose year is absent, null or zero adds nothing to the
    available years and never reaches the filtered rows; the available
    years are exactly the truthy years of the records, in ascending order. *)
Theorem records_without_a_year_are_left_out
  (tab : string) (before after : list SheetDataItem) (item : SheetDataItem)
  (v : View) (sel : list Z) :
  falsy_ano (ano item) ->
  let rows := before ++ item :: after in
  let v' := loadSheetsData_settled tab (Fulfilled rows) v in
  availableYears v'
  = availableYears (loadSheetsData_settled tab (Fulfilled (before ++ after)) v)
  /\ Sorted Z.le (availableYears v')
  /\ Permutation (availableYears v') (filter_Boolean (List.map ano rows))
  /\ (forall y, In y (availableYears v') <->
                (exists r, In r rows /\ ano r = AnoNumber y) /\ y <> 0)
  /\ (forall filtered,
         filteredData (Some rows) sel = Some filtered ->
         ~ In item filtered /\ forall r, In r filtered -> ano_truthy (ano r) = true).
Proof.
  intros Hfalsy rows v'. subst v'.
  destruct (loaded_years tab rows v) as [E1 _]. rewrite E1.
  destruct (loaded_years tab (before ++ after) v) as [E2 _]. rewrite E2.
  split.
  { unfold yearsOf, rows. rewrite !map_app, !filter_Boolean_app. simpl List.map.
    now rewrite (filter_Boolean_falsy _ _ Hfalsy). }
  split; [apply sort_sorted|].
  split; [symmetry; apply sort_perm|].
  split; [intros y; apply yearsOf_In|].
  intros filtered Hf. split.
  - intros Hin. destruct (filteredData_In _ _ _ _ Hf Hin) as (_ & y & Hy & Hnz & _).
    destruct Hfalsy as [H0 | [H0 | H0]]; rewrite H0 in Hy; try discriminate.
    injection Hy as <-. now apply Hnz.
  - intros r Hin. destruct (filteredData_In _ _ _ _ Hf Hin) as (_ & y & Hy & Hnz & _).
    rewrite Hy. simpl. now apply negb_true_iff, Z.eqb_neq.
Qed.

Lemma records_without_a_year_witness :
  falsy_ano (ano (mkItem AnoNull [] None))
  /\ availableYears
       (loadSheetsData_settled "2024"
          (Fulfilled ([sample_item 2023 1 1] ++ mkItem AnoNull [] None :: [sample_item 2022 1 1]))
          mount)
     = availableYears
         (loadSheetsData_settled "2024"
            (Fulfilled ([sample_item 2023 1 1] ++ [sample_item 2022 1 1])) mount).
Proof.
  assert (Hf : falsy_ano (ano (mkItem AnoNull [] None))) by (right; left; reflexivity).
  split; [exact Hf|].
  exact (proj1 (records_without_a_year_are_left_out
                  "2024" [sample_item 2023 1 1] [sample_item 2022 1 1]
                  (mkItem AnoNull [] None) mount [2022] Hf)).
Defined.

(** ** Headers *)

Lemma year_is_selected_nil item : year_is_selected [] item = false.
Proof.
  unfold year_is_selected. destruct (ano item); try reflexivity.
  simpl. now rewrite andb_false_r.
Qed.

Lemma find_none_of_nil (rows : list SheetDataItem) :
  List.find (year_is_selected []) rows = None.
Proof.
  induction rows as [|r rows IH]; simpl; [reflexivity|].
  now rewrite year_is_selected_nil.
Qed.

Lemma head_of_filter {A} (p : A -> bool) (l : list A) :
  match List.filter p l with [] => None | x :: _ => Some x end = List.find p l.
Proof.
  induction l as [|a l IH]; simpl; [reflexivity|]. destruct (p a); [reflexivity|exact IH].
Qed.

Lemma tableHeaders_spec rows sel :
  tableHeaders (filteredData (Some rows) sel)
  = match List.find (year_is_selected sel) rows with
    | Some first => List.filter indicator_key (Object_keys first)
    | None => []
    end.
Proof.
  unfold filteredData. destruct sel as [|y sel]; simpl.
  - now rewrite find_none_of_nil.
  - rewrite <- head_of_filter.
    destruct (List.filter (year_is_selected (y :: sel)) rows); reflexivity.
Qed.

Lemma find_some_of_exists {A} (p : A -> bool) (l : list A) :
  (exists x, In x l /\ p x = true) -> exists y, List.find p l = Some y /\ In y l.
Proof.
  intros (x & Hin & Hp). destruct (List.find p l) as [y|] eqn:E.
  - exists y. split; [reflexivity|]. now apply find_some in E.
  - exfalso. pose proof (find_none _ _ E x Hin) as Hn. congruence.
Qed.

(** C1 (as the code has it): the headers are recomputed from the filtered
    records each time the filter changes: they are the indicator keys of
    the first record whose year is selected, and there are none when no
    record is selected. Two sets of selected years give the same headers
    whenever all records list their keys in the same order and each set
    selects at least one record. *)
Theorem headers_come_from_the_first_selected_record
  (rows : list SheetDataItem) (sel1 sel2 : list Z) (keys : list string) :
  (forall sel,
      tableHeaders (filteredData (Some rows) sel)
      = match List.find (year_is_selected sel) rows with
        | Some first => List.filter indicator_key (Object_keys first)
        | None => []
        end)
  /\ ((forall item, In item rows -> Object_keys item = keys) ->
      (exists item, In item rows /\ year_is_selected sel1 item = true) ->
      (exists item, In item rows /\ year_is_selected sel2 item = true) ->
      tableHeaders (filteredData (Some rows) sel1)
      = tableHeaders (filteredData (Some rows) sel2)
      /\ tableHeaders (filteredData (Some rows) sel1) = List.filter indicator_key keys).
Proof.
  split; [intros sel; apply tableHeaders_spec|].
  intros Hkeys H1 H2.
  assert (Hone : forall sel,
             (exists item, In item rows /\ year_is_selected sel item = true) ->
             tableHeaders (filteredData (Some rows) sel) = List.filter indicator_key keys).
  { intros sel Hex. rewrite tableHeaders_spec.
    destruct (find_some_of_exists _ _ Hex) as (y & E & Hin).
    rewrite E. now rewrite (Hkeys y Hin). }
  split; [now rewrite (Hone sel1 H1), (Hone sel2 H2)|].
  now apply Hone.
Qed.

Lemma headers_witness :
  (forall item, In item sample_rows -> Object_keys item = ["ano"; "Receita"; "Custos"; "percentuais"]%string)
  /\ (exists item, In item sample_rows /\ year_is_selected [2022] item = true)
  /\ (exists item, In item sample_rows /\ year_is_selected [2023; 2024] item = true)
  /\ tableHeaders (filteredData (Some sample_rows) [2022])
     = tableHeaders (filteredData (Some sample_rows) [2023; 2024]).
Proof.
  assert (Hk : forall item, In item sample_rows ->
                            Object_keys item = ["ano"; "Receita"; "Custos"; "percentuais"]%string).
  { intros item [<- | [<- | [<- | []]]]; reflexivity. }
  assert (H1 : exists item, In item sample_rows /\ year_is_selected [2022] item = true).
  { exists (sample_item 2022 100 (-12345 # 10)). split; [simpl; tauto | reflexivity]. }
  assert (H2 : exists item, In item sample_rows /\ year_is_selected [2023; 2024] item = true).
  { exists (sample_item 2024 300 (-120)). split; [simpl; tauto | reflexivity]. }
  split; [exact Hk|]. split; [exact H1|]. split; [exact H2|].
  exact (proj1 (proj2 (headers_come_from_the_first_selected_record
                         sample_rows [2022] [2023; 2024] _) Hk H1 H2)).
Defined.

(** C1 fails as stated: with one record loaded, selecting its year shows
    its two indicators, and selecting no year leaves no header at all. *)
Lemma headers_change_with_the_year_filter :
  tableHeaders (filteredData (Some [sample_item 2022 100 (-50)]) [2022])
  = ["Receita"; "Custos"]%string
  /\ tableHeaders (filteredData (Some [sample_item 2022 100 (-50)]) []) = [].
Proof. split; reflexivity. Qed.

(** ** The response of [/api/sheets/data] *)

Lemma has_message_In props :
  has_message props = true <-> In "message"%string (List.map fst props).
Proof.
  unfold has_message. rewrite existsb_exists, in_map_iff. split.
  - intros (p & Hin & Hp). exists p. split; [|assumption].
    symmetry. now apply String.eqb_eq in Hp.
  - intros (p & Hp & Hin). exists p. split; [assumption|]. rewrite Hp. apply String.eqb_refl.
Qed.

(** C9: a body that is an object with a [message] key comes out of
    [fetchSheetsData] as the empty array, exactly as an empty array body
    does; downstream both leave the same view: no records, no years, no
    headers. *)
Theorem no_data_message_is_an_empty_array
  (props : list (string * JsValue)) (tab : string) (v : View) :
  In "message"%string (List.map fst props) ->
  fetchSheetsData (DataObject props) = DataArray []
  /\ fetchSheetsData (DataObject props) = fetchSheetsData (DataArray [])
  /\ settle (DataObject props) = Some (Fulfilled [])
  /\ settle (DataObject props) = settle (DataArray [])
  /\ (forall o, settle (DataObject props) = Some o ->
                let v' := loadSheetsData_settled tab o v in
                data v' = Some [] /\ availableYears v' = [] /\ selectedYears v' = []
                /\ tableHeaders (filteredData (data v') (selectedYears v')) = []
                /\ error v' = error v).
Proof.
  intros Hin. apply has_message_In in Hin.
  unfold settle, fetchSheetsData. rewrite Hin.
  repeat split; try reflexivity; injection H as <-; reflexivity.
Qed.

Lemma no_data_message_witness :
  In "message"%string (List.map fst [("message"%string, JString "Nenhum dado encontrado")])
  /\ fetchSheetsData (DataObject [("message"%string, JString "Nenhum dado encontrado")])
     = DataArray [].
Proof.
  assert (Hin : In "message"%string
                   (List.map fst [("message"%string, JString "Nenhum dado encontrado")]))
    by (left; reflexivity).
  split; [exact Hin|].
  exact (proj1 (no_data_message_is_an_empty_array _ "2024" mount Hin)).
Defined.

(** ** Class lists *)

Section ClassListFacts.
Context {A : Type} `{Countable A}.

Lemma foldr_classList_remove (l : list A) (marked : gset A) :
  foldr classList_remove marked l = marked ∖ list_to_set l.
Proof.
  induction l as [|x l IH]; simpl.
  - set_solver.
  - rewrite IH. unfold classList_remove. set_solver.
Qed.

Lemma remove_everywhere_empty (marked : gset A) : remove_everywhere marked = ∅.
Proof.
  unfold remove_everywhere. rewrite foldr_classList_remove.
  rewrite list_to_set_elements_L. set_solver.
Qed.

Lemma foldl_classList_add (l : list A) (marked : gset A) :
  foldl (fun m c => classList_add c m) marked l = marked ∪ list_to_set l.
Proof.
  revert marked. induction l as [|x l IH]; intros marked; simpl.
  - set_solver.
  - rewrite IH. unfold classList_add. set_solver.
Qed.

Lemma elem_of_foldl_toggle_force (p : A -> bool) (l : list A) (marked : gset A) (c : A) :
  (c ∈ foldl (fun m el => classList_toggle_force el (p el) m) marked l)
  <-> ((c ∈ l) /\ p c = true) \/ ((c ∉ l) /\ (c ∈ marked)).
Proof.
  revert marked. induction l as [|x l IH]; intros marked; simpl.
  - set_solver.
  - rewrite IH. unfold classList_toggle_force, classList_add, classList_remove.
    rewrite !elem_of_cons.
    destruct (p x) eqn:Hp;
      rewrite ?elem_of_union, ?elem_of_difference, ?elem_of_singleton;
      destruct (decide (c = x)) as [Heq | Hne]; subst;
      destruct (decide (x ∈ l)); try destruct (decide (c ∈ l)); intuition congruence.
Qed.

Lemma foldl_toggle_force_ext (p q : A -> bool) (l : list A) (marked : gset A) :
  (forall el, p el = q el) ->
  foldl (fun m el => classList_toggle_force el (p el) m) marked l
  = foldl (fun m el => classList_toggle_force el (q el) m) marked l.
Proof.
  intros Hpq. revert marked. induction l as [|x l IH]; intros marked; simpl; [reflexivity|].
  now rewrite Hpq, IH.
Qed.
End ClassListFacts.

(** ** Clearing *)

Lemma clearSelection_spec st :
  clearSelection st = mkSelection ∅ ∅ ∅ None (startCellCoords st) (isMouseDown st).
Proof. unfold clearSelection. now rewrite !remove_everywhere_empty. Qed.

(** C6: whatever the selection was, after [clearSelection] no cell, no
    column header and no row header is selected, and there is no anchor. *)
Theorem clear_empties_every_partition (st : Selection) :
  size (cell_selecionada (clearSelection st)) = 0%nat
  /\ size (cabecalho_selecionado (clearSelection st)) = 0%nat
  /\ size (indicador_selecionado (clearSelection st)) = 0%nat
  /\ lastClickedCoords (clearSelection st) = None
  /\ anchorKind (clearSelection st) = None.
Proof.
  rewrite clearSelection_spec.
  cbn [cell_selecionada cabecalho_selecionado indicador_selecionado lastClickedCoords].
  repeat split; apply size_empty.
Qed.

(** ** Ranges of cells *)

Lemma inRange_in_rectangle a b c :
  inRange (Z.min (row a) (row b)) (Z.max (row a) (row b))
          (Z.min (col a) (col b)) (Z.max (col a) (col b)) c = true
  <-> in_rectangle a b c.
Proof.
  unfold inRange, in_rectangle. rewrite !andb_true_iff, !Z.leb_le. tauto.
Qed.

Lemma selectCellsInRange_comm tbl a b st :
  selectCellsInRange tbl a b st = selectCellsInRange tbl b a st.
Proof.
  unfold selectCellsInRange. f_equal. apply foldl_toggle_force_ext. intros el.
  now rewrite (Z.min_comm (row a)), (Z.max_comm (row a)),
              (Z.min_comm (col a)), (Z.max_comm (col a)).
Qed.

(** C4: the two corners of a range can be swapped: [selectCellsInRange]
    leaves the same state either way, and the cells of the table it leaves
    selected are exactly those inside the rectangle between the smaller and
    larger row and the smaller and larger column. Dragging, which calls it
    with the pressed cell and the hovered cell, inherits both. *)
Theorem range_selection_is_symmetric (tbl : Table) (a b : Coord) (st : Selection) :
  selectCellsInRange tbl a b st = selectCellsInRange tbl b a st
  /\ (forall c, In c (planilha_valor tbl) ->
                (c ∈ cell_selecionada (selectCellsInRange tbl a b st) <-> in_rectangle a b c))
  /\ (forall c, c ∈ cell_selecionada (selectCellsInRange tbl a b st) <->
                (In c (planilha_valor tbl) /\ in_rectangle a b c)
                \/ (~ In c (planilha_valor tbl) /\ c ∈ cell_selecionada st))
  /\ cell_selecionada
       (handleCellMouseOver tbl b (set_startCell (Some a) (setIsMouseDown true st)))
     = cell_selecionada
         (handleCellMouseOver tbl a (set_startCell (Some b) (setIsMouseDown true st))).
Proof.
  assert (Hchar : forall c, c ∈ cell_selecionada (selectCellsInRange tbl a b st) <->
                (In c (planilha_valor tbl) /\ in_rectangle a b c)
                \/ (~ In c (planilha_valor tbl) /\ c ∈ cell_selecionada st)).
  { intros c. unfold selectCellsInRange. simpl.
    rewrite elem_of_foldl_toggle_force, inRange_in_rectangle, list_elem_of_In. tauto. }
  split; [apply selectCellsInRange_comm|].
  split; [intros c Hin; rewrite Hchar; tauto|].
  split; [exact Hchar|].
  simpl. unfold selectCellsInRange. simpl. apply foldl_toggle_force_ext. intros el.
  now rewrite (Z.min_comm (row a)), (Z.max_comm (row a)),
              (Z.min_comm (col a)), (Z.max_comm (col a)).
Qed.

(** The shift branch of [handleCellMouseDown] clears first, which also drops
    the anchor it is about to pass on: the handler ends in a [TypeError]
    with nothing selected. *)
Lemma shift_press_on_cell_anchor_throws tbl e target st :
  ctrlKey e = false -> metaKey e = false -> shiftKey e = true ->
  anchorKind st = Some type_cell ->
  handleCellMouseDown tbl e target st
  = Thrown (mkSelection ∅ ∅ ∅ None (startCellCoords st) true).
Proof.
  intros Hc Hm Hs Ha. unfold handleCellMouseDown. rewrite Hc, Hm, Hs. simpl.
  unfold lastClicked_is, anchorKind in *. simpl.
  destruct (lastClickedCoords st) as [a|]; [|discriminate].
  injection Ha as ->. rewrite bool_decide_eq_true_2 by reflexivity.
  now rewrite clearSelection_spec.
Qed.

(** ** Range requests against an anchor of another kind *)


Lemma plain_cell_press tbl target st :
  handleCellMouseDown tbl plain_click target st
  = Returned (mkSelection {[ target ]} ∅ ∅ (Some (mkClicked target type_cell))
                          (Some target) true).
Proof.
  unfold handleCellMouseDown, set_startCell, set_lastClicked, set_cells, classList_add.
  simpl. rewrite !remove_everywhere_empty. do 2 f_equal. set_solver.
Qed.





(** ** Tab and year changes against the selection *)



Lemma selection_of_loadSheetsData_settled tab o v :
  selection (loadSheetsData_settled tab o v) = selection v.
Proof.
  destruct o as [rows|err]; simpl; [reflexivity|]. destruct (is_401 err); reflexivity.
Qed.



Section MovedFacts.
Context {A B : Type} `{Countable A} `{Countable B}.


End MovedFacts.




(** The mark of a cell goes where its node goes: with 2023 alone selected
    and its cell marked at column 0, selecting 2022 as well moves the mark
    to column 1, and unselecting 2023 instead loses it with the table. *)
Lemma mark_follows_its_node :
  selectedYears sample_one_year = [2023]
  /\ elements (cell_selecionada (selection sample_one_year)) = [(0, 0)]
  /\ elements (cell_selecionada (selection (after_change (ChangeYear 2022) sample_one_year)))
     = [(0, 1)]
  /\ elements (cell_selecionada (selection (after_change (ChangeYear 2023) sample_one_year)))
     = []
  /\ anchorKind (selection (after_change (ChangeYear 2023) sample_one_year))
     = Some type_cell.
Proof. vm_compute. repeat split. Qed.

(** ** Requests in flight *)



Lemma selectorEnabled_true v :
  selectorEnabled v = true ->
  initialLoading v = false /\ currentTabLoading v = false.
Proof.
  unfold selectorEnabled, pageRendered. rewrite !andb_true_iff, !negb_true_iff. tauto.
Qed.

Lemma pageRendered_true v : pageRendered v = true -> initialLoading v = false.
Proof. unfold pageRendered. rewrite andb_true_iff, negb_true_iff. tauto. Qed.

Lemma tableMounted_true v : tableMounted v = true -> initialLoading v = false.
Proof.
  unfold tableMounted. rewrite andb_true_iff. intros [H _]. now apply pageRendered_true.
Qed.

(** Events that touch neither the requests nor the fields they depend on. *)
Lemma requests_invariant_same_requests s v :
  requests_invariant s ->
  initialLoading v = initialLoading (view s) ->
  currentTabLoading v = currentTabLoading (view s) ->
  selectedTab v = selectedTab (view s) ->
  requests_invariant (mkSystem v (tabsRequest s) (pending s)).
Proof.
  unfold requests_invariant. cbn [view tabsRequest pending].
  intros Hinv E1 E2 E3. now rewrite E1, E2, E3.
Qed.

Lemma tabEffect_sent prev next :
  initialLoading (fst (tabEffect prev next)) = initialLoading next
  /\ selectedTab (fst (tabEffect prev next)) = selectedTab next
  /\ ((snd (tabEffect prev next) = []
       /\ currentTabLoading (fst (tabEffect prev next)) = currentTabLoading next)
      \/ (snd (tabEffect prev next) = [selectedTab next]
          /\ currentTabLoading (fst (tabEffect prev next)) = true)).
Proof.
  unfold tabEffect.
  destruct (negb (String.eqb (selectedTab prev) (selectedTab next))
            || negb (Bool.eqb (initialLoading prev) (initialLoading next)));
    [|cbn; auto].
  destruct (negb (String.eqb (selectedTab next) "") && negb (initialLoading next));
    [|cbn; auto].
  unfold loadSheetsData_begin. destruct (String.eqb (selectedTab next) ""); cbn; auto.
Qed.

(** A render that may start a load, when nothing was pending. *)
Lemma requests_invariant_rerender prev next s :
  pending s = [] -> tabsRequest s = false -> requests_invariant (rerender prev next s).
Proof.
  intros Hp Htr. unfold requests_invariant, rerender.
  destruct (tabEffect_sent prev next) as (_ & Hsel & Hsent).
  destruct (tabEffect prev next) as [v sent]. cbn [fst snd] in *.
  cbn [view tabsRequest pending]. rewrite Hp, Htr. cbn [app].
  split; [discriminate|].
  destruct Hsent as [[-> Hcl] | [-> Hcl]].
  - split; [now left|reflexivity].
  - rewrite Hsel. split; [now right|]. rewrite Hcl. discriminate.
Qed.

Lemma requests_invariant_step s s' :
  requests_invariant s -> step s s' -> requests_invariant s'.
Proof.
  intros Hinv Hstep.
  destruct Hstep as [s o Ht | s value Hen Hin | s before tab after o Hp
                    | s year Hr Hin | s checkAll Hr | s Hd | s He | s target | s
                    | s e target Hm Hin | s target Hm Hin
                    | s e colIndex Hm Hin | s e rowIndex Hm Hin];
    try (apply requests_invariant_same_requests; [assumption| | |];
         try reflexivity; try (destruct checkAll; reflexivity)).
  - (* the tab list arrives *)
    destruct Hinv as (Hboot & _ & _). destruct (Hboot Ht) as (Hp & _).
    now apply requests_invariant_rerender.
  - (* another tab is picked *)
    apply selectorEnabled_true in Hen as [Hil Hcl].
    destruct Hinv as (Hboot & _ & Hidle).
    apply requests_invariant_rerender; [now apply Hidle|].
    destruct (tabsRequest s); [|reflexivity].
    destruct (Hboot eq_refl) as (_ & Hil' & _). congruence.
  - (* a response arrives *)
    destruct Hinv as (Hboot & Hone & Hidle).
    assert (Hnil : before = [] /\ after = []).
    { destruct Hone as [E | [E _]]; rewrite Hp in E.
      - now destruct before.
      - destruct before as [|b before]; [injection E as _ E; now subst|].
        injection E as _ E. now destruct before. }
    destruct Hnil as [-> ->].
    assert (Htr : tabsRequest s = false).
    { destruct (tabsRequest s); [|reflexivity].
      destruct (Hboot eq_refl) as (E & _). rewrite Hp in E. discriminate. }
    unfold requests_invariant. cbn [view tabsRequest pending app]. rewrite Htr.
    split; [discriminate|]. split; [now left|reflexivity].
Qed.

Lemma requests_invariant_reachable s : reachable s -> requests_invariant s.
Proof.
  induction 1 as [|s s' _ IH Hstep].
  - unfold requests_invariant, boot. cbn. repeat split; now left.
  - exact (requests_invariant_step s s' IH Hstep).
Qed.


Lemma sample_system_reachable : reachable sample_system.
Proof.
  apply (reachable_step boot); [apply reachable_boot|].
  exact (step_tabs_settled boot (TabsFulfilled sample_tabs) eq_refl).
Defined.


(** ** Currency rendering *)

Module RenderFacts.
Import Render.

Lemma negative_spec n : negative n = true <-> (n < 0)%Q.
Proof.
  unfold negative. rewrite negb_true_iff. split.
  - intros Hf. apply Qnot_le_lt. intros Hle. apply Qle_bool_iff in Hle. congruence.
  - intros Hlt. destruct (Qle_bool 0 n) eqn:E; [|reflexivity].
    apply Qle_bool_iff in E. exfalso. exact (Qlt_not_le _ _ Hlt E).
Qed.

Lemma hundredths_nonneg x : (0 <= x)%Q -> 0 <= hundredths x.
Proof.
  intros Hx. unfold hundredths. change 0 with (Qfloor 0). apply Qfloor_resp_le.
  apply Qle_trans with (x * 100)%Q.
  - apply Qmult_le_0_compat; [assumption|discriminate].
  - rewrite <- (Qplus_0_r (x * 100)) at 1. apply Qplus_le_r. discriminate.
Qed.

Lemma hundredths_rounds x :
  (inject_Z (hundredths x) <= x * 100 + (1 # 2) < inject_Z (hundredths x + 1))%Q.
Proof. unfold hundredths. split; [apply Qfloor_le | apply Qlt_floor]. Qed.

Lemma two_digits_table :
  forallb (fun k => (String.length (two_digits k) =? 2)%nat) (seqZ 0 100) = true.
Proof. vm_compute. reflexivity. Qed.

Lemma two_digits_length k : 0 <= k < 100 -> String.length (two_digits k) = 2%nat.
Proof.
  intros Hk. pose proof two_digits_table as Ht. rewrite forallb_forall in Ht.
  apply Nat.eqb_eq, Ht, list_elem_of_In, elem_of_seqZ. lia.
Qed.

End RenderFacts.

(** C8: a numeric cell is rendered with a minus sign in front of the
    currency marker exactly when the number is negative; after the marker
    comes the absolute value rounded to hundredths, the integer part in
    groups of three separated by dots, a comma, and two decimals; [-1234.5]
    gives [-R$ 1.234,50]. *)
Theorem currency_sign_goes_before_the_marker (n : Q) :
  let magnitude := Render.toLocaleString_ptBR (Qabs n) in
  let cents := Render.hundredths (Qabs n) in
  (exists text,
      Render.renderValue (JNumber n) = JString text
      /\ text = ((if Render.negative n then "-" else "") +:+ "R$ " +:+ magnitude)%string
      /\ (String.prefix "-" text = true <-> (n < 0)%Q))
  /\ magnitude
     = (Render.grouped (Render.digits (cents / 100)) +:+ ","
        +:+ Render.two_digits (cents mod 100))%string
  /\ String.length (Render.two_digits (cents mod 100)) = 2%nat
  /\ 0 <= cents
  /\ (inject_Z cents <= Qabs n * 100 + (1 # 2) < inject_Z (cents + 1))%Q
  /\ Render.renderValue (JNumber (-12345 # 10)) = JString "-R$ 1.234,50".
Proof.
  cbv zeta. split.
  { exists ((if Render.negative n then "-" else "") +:+ "R$ "
            +:+ Render.toLocaleString_ptBR (Qabs n))%string.
    split; [|split; [reflexivity|]].
    - unfold Render.renderValue. destruct (Render.negative n); reflexivity.
    - rewrite <- RenderFacts.negative_spec.
      destruct (Render.negative n); simpl; [tauto|]. split; discriminate. }
  split; [reflexivity|].
  split; [apply RenderFacts.two_digits_length, Z.mod_pos_bound; lia|].
  split; [apply RenderFacts.hundredths_nonneg, Qabs_nonneg|].
  split; [apply RenderFacts.hundredths_rounds|].
  vm_compute. reflexivity.
Qed.

(** * Further properties of the page *)

(** ** Toggling years *)

Lemma sort_of_sorted l : Sorted Z.le l -> sort ascending l = l.
Proof.
  intros Hs. apply (Sorted_unique Z.le); [apply sort_sorted | assumption |].
  symmetry. apply sort_perm.
Qed.

Lemma Sorted_le_filter (p : Z -> bool) l :
  Sorted Z.le l -> Sorted Z.le (List.filter p l).
Proof.
  intros Hs. apply Sorted_StronglySorted in Hs; [|intros x y z; lia].
  apply StronglySorted_Sorted.
  induction Hs as [|x l Hs IH Hall]; simpl; [constructor|].
  destruct (p x); [|exact IH]. constructor; [exact IH|].
  rewrite List.Forall_forall in *. intros y Hy. apply Hall.
  now apply filter_In in Hy.
Qed.

Lemma Sorted_lt_le_NoDup l : Sorted Z.lt l -> Sorted Z.le l /\ List.NoDup l.
Proof.
  intros Hs. apply Sorted_StronglySorted in Hs; [|intros x y z; lia].
  induction Hs as [|x l Hs [IHs IHn] Hall].
  - split; constructor.
  - split.
    + constructor; [exact IHs|]. destruct l as [|y l]; constructor.
      apply Forall_inv in Hall. lia.
    + constructor; [|exact IHn]. intros Hin. rewrite List.Forall_forall in Hall.
      specialize (Hall x Hin). lia.
Qed.

Lemma includes_In l y : includes l y = true <-> In y l.
Proof.
  unfold includes. rewrite existsb_exists. split.
  - intros (z & Hz & E). apply Z.eqb_eq in E. now subst.
  - intros Hin. exists y. split; [assumption | apply Z.eqb_refl].
Qed.

Lemma toggled_years_In year prev y :
  In y (if includes prev year
        then List.filter (fun z => negb (z =? year)) prev
        else sort ascending (prev ++ [year]))
  <-> (y = year /\ ~ In year prev) \/ (y <> year /\ In y prev).
Proof.
  destruct (includes prev year) eqn:E.
  - apply includes_In in E. rewrite filter_In, negb_true_iff, Z.eqb_neq.
    split; [tauto|]. intros [[-> Hn] | [Hne Hin]]; tauto.
  - assert (Hn : ~ In year prev) by (rewrite <- includes_In; congruence).
    rewrite sort_In, in_app_iff. simpl.
    destruct (Z.eq_dec y year) as [-> | Hne]; [tauto|].
    split; [intros [H | [H | []]]; [tauto | congruence] | tauto].
Qed.

(** X1: ticking a year flips that year and no other: afterwards the year
    is selected exactly when it was not before, every other year is
    selected exactly when it was, and an ascending list stays ascending. *)
Theorem year_toggle_flips_one_year (year : Z) (v : View) :
  (In year (selectedYears (handleYearToggle year v)) <-> ~ In year (selectedYears v))
  /\ (forall y, y <> year ->
                (In y (selectedYears (handleYearToggle year v)) <-> In y (selectedYears v)))
  /\ (Sorted Z.le (selectedYears v) -> Sorted Z.le (selectedYears (handleYearToggle year v)))
  /\ availableYears (handleYearToggle year v) = availableYears v
  /\ data (handleYearToggle year v) = data v.
Proof.
  cbn [handleYearToggle selectedYears availableYears data].
  split; [rewrite toggled_years_In; tauto|].
  split; [intros y Hne; rewrite toggled_years_In; tauto|].
  split; [|split; reflexivity].
  intros Hs. destruct (includes (selectedYears v) year).
  - now apply Sorted_le_filter.
  - apply sort_sorted.
Qed.

(** X2: on a strictly ascending list of selected years, ticking the same
    year twice gives back the list that was there. *)
Theorem year_toggle_twice_restores (year : Z) (v : View) :
  Sorted Z.lt (selectedYears v) ->
  selectedYears (handleYearToggle year (handleYearToggle year v)) = selectedYears v.
Proof.
  intros Hlt. destruct (Sorted_lt_le_NoDup _ Hlt) as [Hle Hnd].
  set (prev := selectedYears v) in *.
  cbn [handleYearToggle selectedYears]. fold prev.
  destruct (includes prev year) eqn:E.
  - set (rest := List.filter (fun z => negb (z =? year)) prev).
    assert (Hout : ~ In year rest).
    { intros Hin. apply filter_In in Hin as [_ Hin]. now rewrite Z.eqb_refl in Hin. }
    assert (Hinc : includes rest year = false).
    { destruct (includes rest year) eqn:E'; [|reflexivity]. now apply includes_In in E'. }
    rewrite Hinc. apply (Sorted_unique Z.le); [apply sort_sorted | assumption |].
    rewrite <- sort_perm.
    apply Stdlib.Sorting.Permutation.NoDup_Permutation; [|assumption|].
    + apply List.NoDup_app; [now apply List.NoDup_filter | repeat constructor; intros [] |].
      intros x Hx [<- | []]. now apply Hout.
    + intros y. rewrite in_app_iff. unfold rest. rewrite filter_In, negb_true_iff, Z.eqb_neq.
      simpl. apply includes_In in E.
      destruct (Z.eq_dec y year) as [-> | Hne]; [tauto|].
      split; [intros [H | [H | []]]; [tauto | congruence] | tauto].
  - assert (Hn : ~ In year prev) by (rewrite <- includes_In; congruence).
    assert (Hinc : includes (sort ascending (prev ++ [year])) year = true).
    { apply includes_In, sort_In, in_app_iff. right. now left. }
    rewrite Hinc. apply (Sorted_unique Z.le);
      [apply Sorted_le_filter, sort_sorted | assumption |].
    apply Stdlib.Sorting.Permutation.NoDup_Permutation; [|assumption|].
    + apply List.NoDup_filter, (Permutation_NoDup (sort_perm _)).
      apply List.NoDup_app; [assumption | repeat constructor; intros [] |].
      intros x Hx [<- | []]. now apply Hn.
    + intros y. rewrite filter_In, sort_In, in_app_iff, negb_true_iff, Z.eqb_neq. simpl.
      destruct (Z.eq_dec y year) as [-> | Hne]; [tauto|].
      split; [intuition congruence|]. intros Hin. split; [now left | assumption].
Qed.

Lemma year_toggle_twice_witness :
  Sorted Z.lt (selectedYears sample_loaded)
  /\ selectedYears (handleYearToggle 2023 (handleYearToggle 2023 sample_loaded))
     = selectedYears sample_loaded.
Proof.
  assert (Hs : Sorted Z.lt (selectedYears sample_loaded)).
  { change (selectedYears sample_loaded) with [2022; 2023; 2024].
    repeat constructor. }
  split; [exact Hs|]. exact (year_toggle_twice_restores 2023 sample_loaded Hs).
Defined.

(** ** The year lists in the states the page can reach *)

Lemma years_invariant_ext v v' :
  data v' = data v -> availableYears v' = availableYears v ->
  selectedYears v' = selectedYears v ->
  years_invariant v -> years_invariant v'.
Proof. unfold years_invariant. intros E1 E2 E3. now rewrite E1, E2, E3. Qed.

Lemma yearsOf_sorted rows : Sorted Z.le (yearsOf rows).
Proof. apply sort_sorted. Qed.

Lemma years_invariant_available_sorted v :
  years_invariant v -> Sorted Z.le (availableYears v).
Proof.
  intros (E & _). rewrite E. destruct (data v); [apply yearsOf_sorted | constructor].
Qed.

Lemma years_invariant_loaded tab o v :
  years_invariant v -> years_invariant (loadSheetsData_settled tab o v).
Proof.
  intros Hinv. destruct o as [rows | err].
  - unfold years_invariant. cbn [loadSheetsData_settled data availableYears selectedYears].
    assert (E : (if (0 <? length rows)%nat then yearsOf rows else []) = yearsOf rows)
      by (destruct rows; reflexivity).
    rewrite E. split; [reflexivity|]. split; [apply yearsOf_sorted | auto].
  - revert Hinv. apply years_invariant_ext; simpl; destruct (is_401 err); reflexivity.
Qed.

Lemma years_invariant_tabEffect prev next :
  years_invariant next -> years_invariant (fst (tabEffect prev next)).
Proof.
  apply years_invariant_ext; unfold tabEffect, loadSheetsData_begin;
    destruct (negb (String.eqb (selectedTab prev) (selectedTab next))
              || negb (Bool.eqb (initialLoading prev) (initialLoading next)));
    try reflexivity;
    destruct (negb (String.eqb (selectedTab next) "") && negb (initialLoading next));
    try reflexivity;
    destruct (String.eqb (selectedTab next) ""); reflexivity.
Qed.

Lemma years_invariant_initialized o v :
  years_invariant v -> years_invariant (initializeDashboard_settled o v).
Proof.
  intros Hinv. destruct o as [[|initialTab tabs] | err].
  - unfold years_invariant. cbn. repeat split; [constructor | tauto].
  - revert Hinv. apply years_invariant_ext; reflexivity.
  - revert Hinv. apply years_invariant_ext; simpl; destruct (is_401 err); reflexivity.
Qed.

Lemma years_invariant_year_toggle year v :
  In year (availableYears v) -> years_invariant v ->
  years_invariant (handleYearToggle year v).
Proof.
  intros Hav (E & Hs & Hsub). unfold years_invariant.
  cbn [handleYearToggle data availableYears selectedYears].
  split; [exact E|]. split.
  - destruct (includes (selectedYears v) year);
      [now apply Sorted_le_filter | apply sort_sorted].
  - intros y Hy. apply toggled_years_In in Hy as [[-> _] | [_ Hy]]; auto.
Qed.

Lemma years_invariant_toggle_all checkAll v :
  years_invariant v -> years_invariant (handleToggleAllYears checkAll v).
Proof.
  intros Hinv. pose proof (years_invariant_available_sorted v Hinv) as Hs.
  destruct Hinv as (E & _ & _). destruct checkAll; unfold years_invariant;
    cbn [handleToggleAllYears data availableYears selectedYears].
  - rewrite (sort_of_sorted _ Hs). auto.
  - split; [exact E|]. split; [constructor | intros y []].
Qed.

Lemma years_invariant_commit prev next :
  years_invariant next -> years_invariant (commit prev next).
Proof. apply years_invariant_ext; reflexivity. Qed.

Lemma years_invariant_step s s' :
  years_invariant (view s) -> step s s' -> years_invariant (view s').
Proof.
  intros Hinv Hstep.
  destruct Hstep as [s o Ht | s value Hen Hin | s before tab after o Hp
                    | s year Hr Hin | s checkAll Hr | s Hd | s He | s target | s
                    | s e target Hm Hin | s target Hm Hin
                    | s e colIndex Hm Hin | s e rowIndex Hm Hin];
    cbn [view]; try (revert Hinv; apply years_invariant_ext; reflexivity).
  - unfold rerender.
    pose proof (years_invariant_tabEffect (view s) _ (years_invariant_initialized o _ Hinv)) as H.
    destruct (tabEffect (view s) (initializeDashboard_settled o (view s))). exact H.
  - unfold rerender.
    assert (Hc : years_invariant (handleTabChange value (view s)))
      by (revert Hinv; apply years_invariant_ext; reflexivity).
    pose proof (years_invariant_tabEffect (view s) _ Hc) as H.
    destruct (tabEffect (view s) (handleTabChange value (view s))). exact H.
  - now apply years_invariant_commit, years_invariant_loaded.
  - now apply years_invariant_commit, years_invariant_year_toggle.
  - now apply years_invariant_commit, years_invariant_toggle_all.
Qed.

Lemma years_invariant_reachable s : reachable s -> years_invariant (view s).
Proof.
  induction 1 as [|s s' _ IH Hstep].
  - unfold years_invariant. cbn. repeat split; [constructor | tauto].
  - exact (years_invariant_step s s' IH Hstep).
Qed.

(** X3: in every state the page can reach, the selected years are in
    ascending order and each of them is an available year, and the
    available years are the ascending truthy years of the records held
    (none while no records are held). *)
Theorem selected_years_stay_within_available_years (s : System) :
  reachable s ->
  Sorted Z.le (selectedYears (view s))
  /\ Sorted Z.le (availableYears (view s))
  /\ (forall y, In y (selectedYears (view s)) -> In y (availableYears (view s)))
  /\ (forall y, In y (availableYears (view s)) <->
                y <> 0 /\ exists rows item,
                  data (view s) = Some rows /\ In item rows /\ ano item = AnoNumber y).
Proof.
  intros Hr. pose proof (years_invariant_reachable s Hr) as Hinv.
  pose proof (years_invariant_available_sorted _ Hinv) as Hav.
  destruct Hinv as (E & Hs & Hsub).
  split; [exact Hs|]. split; [exact Hav|]. split; [exact Hsub|].
  intros y. rewrite E. destruct (data (view s)) as [rows|].
  - rewrite yearsOf_In. split.
    + intros [(item & Hin & Ha) Hy]. split; [exact Hy|]. now exists rows, item.
    + intros (Hy & rows' & item & [= <-] & Hin & Ha). split; [now exists item | exact Hy].
  - split; [intros [] | intros (_ & rows & item & Hd & _); discriminate].
Qed.

Lemma sample_system_ready_reachable : reachable sample_system_ready.
Proof.
  apply (reachable_step sample_system); [exact sample_system_reachable|].
  exact (step_data_settled sample_system [] "2023" [] (Fulfilled sample_rows) eq_refl).
Defined.

Lemma selected_years_witness :
  reachable sample_system_ready
  /\ selectedYears (view sample_system_ready) = [2022; 2023; 2024]
  /\ Sorted Z.le (selectedYears (view sample_system_ready))
  /\ (forall y, In y (selectedYears (view sample_system_ready)) ->
                In y (availableYears (view sample_system_ready))).
Proof.
  split; [exact sample_system_ready_reachable|]. split; [reflexivity|].
  pose proof (selected_years_stay_within_available_years
                sample_system_ready sample_system_ready_reachable) as (H1 & _ & H3 & _).
  split; [exact H1 | exact H3].
Defined.

(** ** The rendered grid *)

Lemma renderTable_cells v r c :
  In (r, c) (planilha_valor (renderTable v))
  <-> 0 <= r < Z.of_nat (length (tableHeaders (filteredData (data v) (selectedYears v))))
      /\ 0 <= c
      /\ exists year, selectedYears v !! Z.to_nat c = Some year /\ has_record v year = true.
Proof.
  unfold renderTable. cbn [planilha_valor]. rewrite in_flat_map. split.
  - intros (r' & Hr & Hin). apply list_elem_of_In, elem_of_seqZ in Hr.
    apply in_flat_map in Hin as (c' & Hc & Hin).
    apply list_elem_of_In, elem_of_seqZ in Hc.
    destruct (selectedYears v !! Z.to_nat c') as [year|] eqn:E; [|destruct Hin].
    destruct (has_record v year) eqn:Hrec; [|destruct Hin].
    destruct Hin as [[= <- <-] | []].
    split; [lia|]. split; [lia|]. exists year. now rewrite E.
  - intros (Hr & Hc & year & E & Hrec). exists r. split.
    + apply list_elem_of_In, elem_of_seqZ. lia.
    + apply in_flat_map. exists c. split.
      * apply list_elem_of_In, elem_of_seqZ. apply lookup_lt_Some in E. lia.
      * rewrite E, Hrec. now left.
Qed.

(** X4: the coordinate model of the rendered table. A value cell sits at
    [(row, col)] exactly when [row] is the index of a header, [col] the
    index of a selected year, and some record carries that year; column
    headers are numbered from 0 along the selected years and row headers
    from 0 along the table headers. *)
Theorem rendered_cells_follow_headers_and_years (v : View) :
  (forall r c,
      In (r, c) (planilha_valor (renderTable v))
      <-> 0 <= r < Z.of_nat (length (tableHeaders (filteredData (data v) (selectedYears v))))
          /\ 0 <= c
          /\ exists year, selectedYears v !! Z.to_nat c = Some year
                          /\ has_record v year = true)
  /\ (forall c, In c (cabecalho_ano (renderTable v))
                <-> 0 <= c < Z.of_nat (length (selectedYears v)))
  /\ (forall r, In r (indicador_col (renderTable v))
                <-> 0 <= r < Z.of_nat
                                (length (tableHeaders (filteredData (data v) (selectedYears v))))).
Proof.
  split; [intros r c; apply renderTable_cells|].
  split; intros i; unfold renderTable; cbn [cabecalho_ano indicador_col];
    rewrite <- list_elem_of_In, elem_of_seqZ; lia.
Qed.

Lemma has_record_of_year v rows y :
  data v = Some rows -> In y (yearsOf rows) -> has_record v y = true.
Proof.
  intros Hd Hin. apply yearsOf_In in Hin as [(item & Hin & Ha) _].
  unfold has_record. rewrite Hd. apply existsb_exists. exists item.
  split; [assumption|]. rewrite Ha. apply Z.eqb_refl.
Qed.

(** X5: in every state the page can reach, each selected year has a
    record, so the placeholder cell for a year without record is never
    rendered: the value cells fill the whole grid of headers by selected
    years. *)
Theorem reachable_grid_is_full (s : System) :
  reachable s ->
  (forall year, In year (selectedYears (view s)) -> has_record (view s) year = true)
  /\ (forall r c,
         In (r, c) (planilha_valor (renderTable (view s)))
         <-> 0 <= r < Z.of_nat (length (tableHeaders
                                          (filteredData (data (view s)) (selectedYears (view s)))))
             /\ 0 <= c < Z.of_nat (length (selectedYears (view s)))).
Proof.
  intros Hr. destruct (years_invariant_reachable s Hr) as (E & _ & Hsub).
  assert (Hrec : forall year, In year (selectedYears (view s)) ->
                              has_record (view s) year = true).
  { intros year Hin. apply Hsub in Hin. rewrite E in Hin.
    destruct (data (view s)) as [rows|] eqn:Hd; [|destruct Hin].
    now apply (has_record_of_year _ rows). }
  split; [exact Hrec|]. intros r c. rewrite renderTable_cells. split.
  - intros (Hrow & Hc & year & Hl & _). split; [exact Hrow|].
    apply lookup_lt_Some in Hl. lia.
  - intros (Hrow & Hc). split; [exact Hrow|]. split; [lia|].
    destruct (lookup_lt_is_Some_2 (selectedYears (view s)) (Z.to_nat c)) as [year Hl]; [lia|].
    exists year. split; [exact Hl|]. apply Hrec, list_elem_of_In.
    now apply list_elem_of_lookup_2 in Hl.
Qed.

Lemma reachable_grid_witness :
  reachable sample_system_ready
  /\ (In (1, 2) (planilha_valor (renderTable (view sample_system_ready)))
      <-> 0 <= 1 < Z.of_nat (length (tableHeaders
                                       (filteredData (data (view sample_system_ready))
                                                     (selectedYears (view sample_system_ready)))))
          /\ 0 <= 2 < Z.of_nat (length (selectedYears (view sample_system_ready)))).
Proof.
  split; [exact sample_system_ready_reachable|].
  exact (proj2 (reachable_grid_is_full sample_system_ready sample_system_ready_reachable) 1 2).
Defined.

(** ** Toggling marks *)

Section ToggleFacts.
Context {A : Type} `{Countable A}.

Lemma elem_of_classList_toggle (a y : A) (marked : gset A) :
  (y ∈ classList_toggle a marked) <-> (y = a /\ (y ∉ marked)) \/ (y <> a /\ (y ∈ marked)).
Proof.
  unfold classList_toggle, classList_add, classList_remove.
  destruct (decide (a ∈ marked)) as [Hin | Hout];
    rewrite ?elem_of_union, ?elem_of_difference, ?elem_of_singleton;
    destruct (decide (y = a)) as [-> | Hne]; intuition congruence.
Qed.

Lemma classList_toggle_twice (a : A) (marked : gset A) :
  classList_toggle a (classList_toggle a marked) = marked.
Proof.
  apply set_eq. intros y. rewrite !elem_of_classList_toggle.
  destruct (decide (y = a)) as [-> | Hne]; destruct (decide (a ∈ marked));
    try destruct (decide (y ∈ marked)); intuition congruence.
Qed.

Lemma classList_toggle_comm (a b : A) (marked : gset A) :
  classList_toggle a (classList_toggle b marked)
  = classList_toggle b (classList_toggle a marked).
Proof.
  apply set_eq. intros y. rewrite !elem_of_classList_toggle.
  destruct (decide (y = a)); destruct (decide (y = b)); destruct (decide (y ∈ marked));
    intuition congruence.
Qed.

Lemma foldl_toggle_push (l : list A) (a : A) (marked : gset A) :
  foldl (fun m c => classList_toggle c m) (classList_toggle a marked) l
  = classList_toggle a (foldl (fun m c => classList_toggle c m) marked l).
Proof.
  revert marked. induction l as [|x l IH]; intros marked; simpl; [reflexivity|].
  now rewrite classList_toggle_comm, IH.
Qed.

Lemma foldl_toggle_twice (l : list A) (marked : gset A) :
  foldl (fun m c => classList_toggle c m)
        (foldl (fun m c => classList_toggle c m) marked l) l
  = marked.
Proof.
  revert marked. induction l as [|x l IH]; intros marked; simpl; [reflexivity|].
  now rewrite !foldl_toggle_push, IH, classList_toggle_twice.
Qed.
End ToggleFacts.

(** X6: pressing the same cell twice with ctrl (or cmd) held puts the cell
    marks back as they were; the first press flips the mark of that cell
    alone, neither press touches the header marks, and the anchor ends on
    the pressed cell. *)
Theorem ctrl_press_twice_restores_the_cells
  (tbl : Table) (e : MouseEvent) (target : Coord) (st : Selection) :
  ctrlKey e || metaKey e = true ->
  exists once twice,
    handleCellMouseDown tbl e target st = Returned once
    /\ handleCellMouseDown tbl e target once = Returned twice
    /\ (target ∈ cell_selecionada once <-> target ∉ cell_selecionada st)
    /\ (forall c, c <> target ->
                  (c ∈ cell_selecionada once <-> c ∈ cell_selecionada st))
    /\ cell_selecionada twice = cell_selecionada st
    /\ cabecalho_selecionado twice = cabecalho_selecionado st
    /\ indicador_selecionado twice = indicador_selecionado st
    /\ lastClickedCoords twice = Some (mkClicked target type_cell).
Proof.
  intros Hmod. unfold handleCellMouseDown. rewrite Hmod. eexists. eexists.
  split; [reflexivity|]. split; [reflexivity|]. cbn.
  split; [rewrite elem_of_classList_toggle; intuition congruence|].
  split; [intros c Hne; rewrite elem_of_classList_toggle; intuition congruence|].
  split; [apply classList_toggle_twice|]. repeat split.
Qed.

Lemma ctrl_press_twice_witness :
  ctrlKey ctrl_click || metaKey ctrl_click = true
  /\ exists once twice,
      handleCellMouseDown sample_table ctrl_click (1, 1) sample_after_cell = Returned once
      /\ handleCellMouseDown sample_table ctrl_click (1, 1) once = Returned twice
      /\ cell_selecionada twice = cell_selecionada sample_after_cell.
Proof.
  split; [reflexivity|].
  destruct (ctrl_press_twice_restores_the_cells sample_table ctrl_click (1, 1)
              sample_after_cell eq_refl) as (once & twice & H1 & H2 & _ & _ & H3 & _).
  exists once, twice. repeat split; assumption.
Defined.

(** X7: clicking the same column header twice with ctrl held puts both the
    header marks and the cell marks back as they were, leaves the row
    header marks alone, and moves the anchor to that column. The same holds
    of a row header. *)
Theorem ctrl_click_on_header_twice_restores
  (tbl : Table) (e : MouseEvent) (index : Z) (st : Selection) :
  ctrlKey e = true ->
  (let twice := handleColHeaderClick tbl e index (handleColHeaderClick tbl e index st) in
   cell_selecionada twice = cell_selecionada st
   /\ cabecalho_selecionado twice = cabecalho_selecionado st
   /\ indicador_selecionado twice = indicador_selecionado st
   /\ lastClickedCoords twice = Some (mkClicked (-1, index) type_col)
   /\ (index ∈ cabecalho_selecionado (handleColHeaderClick tbl e index st)
       <-> index ∉ cabecalho_selecionado st))
  /\ (let twice := handleRowHeaderClick tbl e index (handleRowHeaderClick tbl e index st) in
      cell_selecionada twice = cell_selecionada st
      /\ cabecalho_selecionado twice = cabecalho_selecionado st
      /\ indicador_selecionado twice = indicador_selecionado st
      /\ lastClickedCoords twice = Some (mkClicked (index, -1) type_row)
      /\ (index ∈ indicador_selecionado (handleRowHeaderClick tbl e index st)
          <-> index ∉ indicador_selecionado st)).
Proof.
  intros Hc. unfold handleColHeaderClick, handleRowHeaderClick. rewrite Hc. cbn.
  split.
  - split; [apply foldl_toggle_twice|]. split; [apply classList_toggle_twice|].
    split; [reflexivity|]. split; [reflexivity|].
    rewrite elem_of_classList_toggle. intuition congruence.
  - split; [apply foldl_toggle_twice|]. split; [reflexivity|].
    split; [apply classList_toggle_twice|]. split; [reflexivity|].
    rewrite elem_of_classList_toggle. intuition congruence.
Qed.

Lemma ctrl_click_on_header_twice_witness :
  ctrlKey ctrl_click = true
  /\ cell_selecionada
       (handleRowHeaderClick sample_table ctrl_click 2
          (handleRowHeaderClick sample_table ctrl_click 2 sample_after_col))
     = cell_selecionada sample_after_col
  /\ indicador_selecionado
       (handleRowHeaderClick sample_table ctrl_click 2
          (handleRowHeaderClick sample_table ctrl_click 2 sample_after_col))
     = indicador_selecionado sample_after_col.
Proof.
  split; [reflexivity|].
  pose proof (ctrl_click_on_header_twice_restores sample_table ctrl_click 2
                sample_after_col eq_refl) as (_ & H1 & _ & H3 & _).
  split; [exact H1 | exact H3].
Defined.

(** ** Ranges of columns and rows *)

Lemma add_cells_fields cells st :
  cell_selecionada (add_cells cells st) = cell_selecionada st ∪ list_to_set cells
  /\ cabecalho_selecionado (add_cells cells st) = cabecalho_selecionado st
  /\ indicador_selecionado (add_cells cells st) = indicador_selecionado st
  /\ lastClickedCoords (add_cells cells st) = lastClickedCoords st
  /\ startCellCoords (add_cells cells st) = startCellCoords st
  /\ isMouseDown (add_cells cells st) = isMouseDown st.
Proof. unfold add_cells. cbn. rewrite foldl_classList_add. repeat split. Qed.

Lemma mark_col_fields tbl st i :
  cell_selecionada (mark_col tbl st i)
  = cell_selecionada st ∪ list_to_set (cellsInCol tbl i)
  /\ cabecalho_selecionado (mark_col tbl st i)
     = (if bool_decide (i ∈ cabecalho_ano tbl)
        then cabecalho_selecionado st ∪ {[ i ]} else cabecalho_selecionado st)
  /\ indicador_selecionado (mark_col tbl st i) = indicador_selecionado st
  /\ lastClickedCoords (mark_col tbl st i) = lastClickedCoords st
  /\ startCellCoords (mark_col tbl st i) = startCellCoords st
  /\ isMouseDown (mark_col tbl st i) = isMouseDown st.
Proof.
  unfold mark_col.
  destruct (add_cells_fields (cellsInCol tbl i)
              (if bool_decide (i ∈ cabecalho_ano tbl)
               then set_cabecalhos (classList_add i (cabecalho_selecionado st)) st
               else st)) as (Fc & Fh & Fr & Fa & Fs & Fm).
  rewrite Fc, Fh, Fr, Fa, Fs, Fm.
  destruct (bool_decide (i ∈ cabecalho_ano tbl)); repeat split.
Qed.

Lemma mark_row_fields tbl st i :
  cell_selecionada (mark_row tbl st i)
  = cell_selecionada st ∪ list_to_set (cellsInRow tbl i)
  /\ indicador_selecionado (mark_row tbl st i)
     = (if bool_decide (i ∈ indicador_col tbl)
        then indicador_selecionado st ∪ {[ i ]} else indicador_selecionado st)
  /\ cabecalho_selecionado (mark_row tbl st i) = cabecalho_selecionado st
  /\ lastClickedCoords (mark_row tbl st i) = lastClickedCoords st
  /\ startCellCoords (mark_row tbl st i) = startCellCoords st
  /\ isMouseDown (mark_row tbl st i) = isMouseDown st.
Proof.
  unfold mark_row.
  destruct (add_cells_fields (cellsInRow tbl i)
              (if bool_decide (i ∈ indicador_col tbl)
               then set_indicadores (classList_add i (indicador_selecionado st)) st
               else st)) as (Fc & Fh & Fr & Fa & Fs & Fm).
  rewrite Fc, Fh, Fr, Fa, Fs, Fm.
  destruct (bool_decide (i ∈ indicador_col tbl)); repeat split.
Qed.

Lemma elem_of_cells_in_col tbl i c :
  c ∈ (list_to_set (cellsInCol tbl i) : gset Coord) <-> In c (planilha_valor tbl) /\ col c = i.
Proof.
  rewrite elem_of_list_to_set, list_elem_of_In. unfold cellsInCol.
  now rewrite filter_In, Z.eqb_eq.
Qed.

Lemma elem_of_cells_in_row tbl i c :
  c ∈ (list_to_set (cellsInRow tbl i) : gset Coord) <-> In c (planilha_valor tbl) /\ row c = i.
Proof.
  rewrite elem_of_list_to_set, list_elem_of_In. unfold cellsInRow.
  now rewrite filter_In, Z.eqb_eq.
Qed.

Lemma elem_of_marked_header (present : list Z) (i j : Z) (marked : gset Z) :
  j ∈ (if bool_decide (i ∈ present) then marked ∪ {[ i ]} else marked)
  <-> j ∈ marked \/ (In j present /\ j = i).
Proof.
  destruct (bool_decide (i ∈ present)) eqn:Hb.
  - apply bool_decide_eq_true_1, list_elem_of_In in Hb.
    rewrite elem_of_union, elem_of_singleton. intuition congruence.
  - apply bool_decide_eq_false_1 in Hb. rewrite list_elem_of_In in Hb.
    intuition congruence.
Qed.

Lemma foldl_mark_col tbl (indices : list Z) (st : Selection) :
  let st' := foldl (mark_col tbl) st indices in
  (forall c, c ∈ cell_selecionada st' <->
             c ∈ cell_selecionada st \/ (In c (planilha_valor tbl) /\ In (col c) indices))
  /\ (forall i, i ∈ cabecalho_selecionado st' <->
                i ∈ cabecalho_selecionado st \/ (In i (cabecalho_ano tbl) /\ In i indices))
  /\ indicador_selecionado st' = indicador_selecionado st
  /\ lastClickedCoords st' = lastClickedCoords st
  /\ startCellCoords st' = startCellCoords st
  /\ isMouseDown st' = isMouseDown st.
Proof.
  cbv zeta. revert st. induction indices as [|i indices IH]; intros st; simpl.
  - repeat split; tauto.
  - destruct (IH (mark_col tbl st i)) as (Hc & Hh & Hr & Ha & Hs & Hm). clear IH.
    destruct (mark_col_fields tbl st i) as (Fc & Fh & Fr & Fa & Fs & Fm).
    split; [|split; [|repeat split; congruence]].
    + intros c. specialize (Hc c).
      rewrite Fc, elem_of_union, elem_of_cells_in_col in Hc.
      clear -Hc. cbn [In]. naive_solver.
    + intros j. specialize (Hh j). rewrite Fh, elem_of_marked_header in Hh.
      clear -Hh. cbn [In]. naive_solver.
Qed.

Lemma foldl_mark_row tbl (indices : list Z) (st : Selection) :
  let st' := foldl (mark_row tbl) st indices in
  (forall c, c ∈ cell_selecionada st' <->
             c ∈ cell_selecionada st \/ (In c (planilha_valor tbl) /\ In (row c) indices))
  /\ (forall i, i ∈ indicador_selecionado st' <->
                i ∈ indicador_selecionado st \/ (In i (indicador_col tbl) /\ In i indices))
  /\ cabecalho_selecionado st' = cabecalho_selecionado st
  /\ lastClickedCoords st' = lastClickedCoords st
  /\ startCellCoords st' = startCellCoords st
  /\ isMouseDown st' = isMouseDown st.
Proof.
  cbv zeta. revert st. induction indices as [|i indices IH]; intros st; simpl.
  - repeat split; tauto.
  - destruct (IH (mark_row tbl st i)) as (Hc & Hh & Hr & Ha & Hs & Hm). clear IH.
    destruct (mark_row_fields tbl st i) as (Fc & Fh & Fr & Fa & Fs & Fm).
    split; [|split; [|repeat split; congruence]].
    + intros c. specialize (Hc c).
      rewrite Fc, elem_of_union, elem_of_cells_in_row in Hc.
      clear -Hc. cbn [In]. naive_solver.
    + intros j. specialize (Hh j). rewrite Fh, elem_of_marked_header in Hh.
      clear -Hh. cbn [In]. naive_solver.
Qed.

Lemma In_seqZ_span lo hi i : In i (seqZ lo (hi - lo + 1)) <-> lo <= i <= hi.
Proof. rewrite <- list_elem_of_In, elem_of_seqZ. lia. Qed.

(** X8: a shift-click on a column header, with a column as anchor, selects
    the span between the two columns whichever side the anchor is on: the
    headers rendered at the indices of the span and every cell in those
    columns, and nothing else. It leaves no anchor behind. *)
Theorem column_range_selects_the_span
  (tbl : Table) (e : MouseEvent) (colIndex : Z) (anchor : Coord) (st : Selection) :
  shiftKey e = true -> ctrlKey e = false -> metaKey e = false ->
  lastClickedCoords st = Some (mkClicked anchor type_col) ->
  let lo := Z.min (col anchor) colIndex in
  let hi := Z.max (col anchor) colIndex in
  let st' := handleColHeaderClick tbl e colIndex st in
  (forall c, c ∈ cell_selecionada st' <-> In c (planilha_valor tbl) /\ lo <= col c <= hi)
  /\ (forall i, i ∈ cabecalho_selecionado st' <-> In i (cabecalho_ano tbl) /\ lo <= i <= hi)
  /\ indicador_selecionado st' = ∅
  /\ lastClickedCoords st' = None
  /\ startCellCoords st' = startCellCoords st
  /\ isMouseDown st' = isMouseDown st.
Proof.
  intros Hs Hc Hm Ha. cbv zeta. unfold handleColHeaderClick. rewrite Hs, Hc, Hm. cbn [negb andb orb].
  unfold lastClicked_is. rewrite Ha. cbn [clicked_type clicked_at].
  rewrite bool_decide_eq_true_2 by reflexivity. rewrite clearSelection_spec.
  destruct (foldl_mark_col tbl
              (seqZ (Z.min (col anchor) colIndex)
                    (Z.max (col anchor) colIndex - Z.min (col anchor) colIndex + 1))
              (mkSelection ∅ ∅ ∅ None (startCellCoords st) (isMouseDown st)))
    as (Fc & Fh & Fr & Fa & Fs & Fm).
  split; [|split; [|repeat split; assumption]].
  - intros c. etransitivity; [apply Fc|]. rewrite In_seqZ_span. cbn. rewrite elem_of_empty. tauto.
  - intros i. etransitivity; [apply Fh|]. rewrite In_seqZ_span. cbn. rewrite elem_of_empty. tauto.
Qed.

Lemma column_range_witness :
  lastClickedCoords sample_after_col = Some (mkClicked (-1, 1) type_col)
  /\ (forall i, i ∈ cabecalho_selecionado
                      (handleColHeaderClick sample_table shift_click 0 sample_after_col)
                <-> In i (cabecalho_ano sample_table) /\ Z.min 1 0 <= i <= Z.max 1 0)
  /\ lastClickedCoords (handleColHeaderClick sample_table shift_click 0 sample_after_col)
     = None.
Proof.
  split; [reflexivity|].
  pose proof (column_range_selects_the_span sample_table shift_click 0 (-1, 1)
                sample_after_col eq_refl eq_refl eq_refl eq_refl)
    as (_ & H2 & _ & H4 & _).
  split; [exact H2 | exact H4].
Defined.

(** X9: a shift-click on a row header, with a row as anchor, selects the
    span between the two rows whichever side the anchor is on: the row
    headers rendered at the indices of the span and every cell in those
    rows, and nothing else. It leaves no anchor behind. *)
Theorem row_range_selects_the_span
  (tbl : Table) (e : MouseEvent) (rowIndex : Z) (anchor : Coord) (st : Selection) :
  shiftKey e = true -> ctrlKey e = false -> metaKey e = false ->
  lastClickedCoords st = Some (mkClicked anchor type_row) ->
  let lo := Z.min (row anchor) rowIndex in
  let hi := Z.max (row anchor) rowIndex in
  let st' := handleRowHeaderClick tbl e rowIndex st in
  (forall c, c ∈ cell_selecionada st' <-> In c (planilha_valor tbl) /\ lo <= row c <= hi)
  /\ (forall i, i ∈ indicador_selecionado st' <-> In i (indicador_col tbl) /\ lo <= i <= hi)
  /\ cabecalho_selecionado st' = ∅
  /\ lastClickedCoords st' = None
  /\ startCellCoords st' = startCellCoords st
  /\ isMouseDown st' = isMouseDown st.
Proof.
  intros Hs Hc Hm Ha. cbv zeta. unfold handleRowHeaderClick. rewrite Hs, Hc, Hm. cbn [negb andb orb].
  unfold lastClicked_is. rewrite Ha. cbn [clicked_type clicked_at].
  rewrite bool_decide_eq_true_2 by reflexivity. rewrite clearSelection_spec.
  destruct (foldl_mark_row tbl
              (seqZ (Z.min (row anchor) rowIndex)
                    (Z.max (row anchor) rowIndex - Z.min (row anchor) rowIndex + 1))
              (mkSelection ∅ ∅ ∅ None (startCellCoords st) (isMouseDown st)))
    as (Fc & Fh & Fr & Fa & Fs & Fm).
  split; [|split; [|repeat split; assumption]].
  - intros c. etransitivity; [apply Fc|]. rewrite In_seqZ_span. cbn. rewrite elem_of_empty. tauto.
  - intros i. etransitivity; [apply Fh|]. rewrite In_seqZ_span. cbn. rewrite elem_of_empty. tauto.
Qed.

Lemma row_range_witness :
  lastClickedCoords sample_after_row = Some (mkClicked (0, -1) type_row)
  /\ (forall c, c ∈ cell_selecionada
                      (handleRowHeaderClick sample_table shift_click 2 sample_after_row)
                <-> In c (planilha_valor sample_table) /\ Z.min 0 2 <= row c <= Z.max 0 2)
  /\ lastClickedCoords (handleRowHeaderClick sample_table shift_click 2 sample_after_row)
     = None.
Proof.
  split; [reflexivity|].
  pose proof (row_range_selects_the_span sample_table shift_click 2 (0, -1)
                sample_after_row eq_refl eq_refl eq_refl eq_refl)
    as (H1 & _ & _ & H4 & _).
  split; [exact H1 | exact H4].
Defined.

(** ** Pressing and dragging over cells *)

(** X10: a plain press on one cell followed by a shift-press on another
    does not select the rectangle between them: the shift branch clears
    first, which drops the anchor it then reads, so the handler ends in a
    [TypeError] with nothing selected, no anchor, and the first cell still
    recorded as the start of a drag. *)
Theorem shift_press_after_a_cell_press_throws
  (tbl : Table) (e : MouseEvent) (first second : Coord) (st : Selection) :
  shiftKey e = true -> ctrlKey e = false -> metaKey e = false ->
  exists pressed,
    handleCellMouseDown tbl plain_click first st = Returned pressed
    /\ cell_selecionada pressed = {[ first ]}
    /\ anchorKind pressed = Some type_cell
    /\ handleCellMouseDown tbl e second pressed
       = Thrown (mkSelection ∅ ∅ ∅ None (Some first) true).
Proof.
  intros Hs Hc Hm.
  exists (mkSelection {[ first ]} ∅ ∅ (Some (mkClicked first type_cell)) (Some first) true).
  split; [apply plain_cell_press|].
  split; [reflexivity|]. split; [reflexivity|].
  exact (shift_press_on_cell_anchor_throws tbl e second
           (mkSelection {[ first ]} ∅ ∅ (Some (mkClicked first type_cell)) (Some first) true)
           Hc Hm Hs eq_refl).
Qed.

Lemma shift_press_after_a_cell_press_witness :
  shiftKey shift_click = true /\ ctrlKey shift_click = false /\ metaKey shift_click = false
  /\ exists pressed,
      handleCellMouseDown sample_table plain_click (0, 0) sample_after_col = Returned pressed
      /\ handleCellMouseDown sample_table shift_click (2, 2) pressed
         = Thrown (mkSelection ∅ ∅ ∅ None (Some (0, 0)) true).
Proof.
  repeat (split; [reflexivity|]).
  destruct (shift_press_after_a_cell_press_throws sample_table shift_click (0, 0) (2, 2)
              sample_after_col eq_refl eq_refl eq_refl) as (pressed & H1 & _ & _ & H4).
  exists pressed. split; assumption.
Defined.

Lemma selectCellsInRange_cells tbl a b st c :
  c ∈ cell_selecionada (selectCellsInRange tbl a b st)
  <-> (In c (planilha_valor tbl) /\ in_rectangle a b c)
      \/ (~ In c (planilha_valor tbl) /\ c ∈ cell_selecionada st).
Proof.
  unfold selectCellsInRange. cbn [set_cells cell_selecionada].
  rewrite elem_of_foldl_toggle_force, inRange_in_rectangle, list_elem_of_In. tauto.
Qed.

(** X11: while the button is held, every hover recomputes the cell marks
    from the pressed cell: after hovering one cell and then another, the
    cell marks are those of hovering the second alone, namely the rectangle
    between the pressed cell and it. Hovering never touches the header
    marks, the anchor or the pressed cell, and does nothing at all when no
    button is held. *)
Theorem drag_follows_the_last_hovered_cell
  (tbl : Table) (first second : Coord) (st : Selection) :
  cell_selecionada (handleCellMouseOver tbl second (handleCellMouseOver tbl first st))
  = cell_selecionada (handleCellMouseOver tbl second st)
  /\ (forall start c,
         isMouseDown st = true -> startCellCoords st = Some start ->
         In c (planilha_valor tbl) ->
         (c ∈ cell_selecionada (handleCellMouseOver tbl second st)
          <-> in_rectangle start second c))
  /\ cabecalho_selecionado (handleCellMouseOver tbl second st) = cabecalho_selecionado st
  /\ indicador_selecionado (handleCellMouseOver tbl second st) = indicador_selecionado st
  /\ lastClickedCoords (handleCellMouseOver tbl second st) = lastClickedCoords st
  /\ startCellCoords (handleCellMouseOver tbl second st) = startCellCoords st
  /\ (isMouseDown st = false -> handleCellMouseOver tbl second st = st).
Proof.
  unfold handleCellMouseOver.
  destruct (isMouseDown st) eqn:Hd;
    [|cbn; rewrite ?Hd; repeat split; intros; congruence].
  destruct (startCellCoords st) as [start|] eqn:Hs;
    [|cbn; rewrite ?Hd, ?Hs; repeat split; intros; congruence].
  cbn [selectCellsInRange set_cells isMouseDown startCellCoords]. rewrite Hd, Hs.
  split; [|split; [|repeat split; intros; congruence]].
  - apply set_eq. intros c.
    pose proof (selectCellsInRange_cells tbl start second (selectCellsInRange tbl start first st) c)
      as H2.
    pose proof (selectCellsInRange_cells tbl start first st c) as H1.
    pose proof (selectCellsInRange_cells tbl start second st c) as H3.
    unfold selectCellsInRange in H1, H2, H3. cbn [set_cells cell_selecionada] in H1, H2, H3.
    rewrite H2, H3, H1. tauto.
  - intros start' c _ [= <-] Hin.
    pose proof (selectCellsInRange_cells tbl start second st c) as H3.
    unfold selectCellsInRange in H3. cbn [set_cells cell_selecionada] in H3.
    rewrite H3. tauto.
Qed.

(** ** Failures and the error screen *)

Lemma unauthorized_message_nonempty : unauthorized_message <> ""%string.
Proof. discriminate. Qed.

Lemma load_error_nonempty m : ("Erro ao carregar dados da aba: " +:+ m)%string <> ""%string.
Proof. discriminate. Qed.

Lemma init_error_nonempty m : ("Erro ao inicializar o dashboard: " +:+ m)%string <> ""%string.
Proof. discriminate. Qed.

Lemma pageRendered_error v : error v <> ""%string -> pageRendered v = false.
Proof.
  intros Hne. unfold pageRendered. destruct (String.eqb_spec (error v) ""); [contradiction|].
  apply andb_false_r.
Qed.

(** X12: a refused or failed load keeps the records, the years and the tab
    that were there, ends the loading state and puts the error screen in
    place of the whole page, table and tab selector included: every mark
    goes with the table, while the anchor stays in its ref. Only a 401
    sends the user to the login page; any other failure shows its message,
    or [Unknown error.] when it has none. *)
Theorem failed_load_shows_the_error_screen (tab : string) (err : AxiosError) (v : View) :
  let v' := loadSheetsData_settled tab (Rejected err) v in
  let shown := commit v v' in
  currentTabLoading v' = false
  /\ data v' = data v /\ availableYears v' = availableYears v
  /\ selectedYears v' = selectedYears v /\ selectedTab v' = selectedTab v
  /\ pageRendered v' = false /\ tableMounted v' = false /\ selectorEnabled v' = false
  /\ cell_selecionada (selection shown) = ∅
  /\ cabecalho_selecionado (selection shown) = ∅
  /\ indicador_selecionado (selection shown) = ∅
  /\ lastClickedCoords (selection shown) = lastClickedCoords (selection v)
  /\ (response_status err = Some 401 ->
      error v' = unauthorized_message /\ navigation v' = "/login"%string :: navigation v)
  /\ (response_status err <> Some 401 ->
      navigation v' = navigation v
      /\ exists m, error v' = ("Erro ao carregar dados da aba: " +:+ m)%string
                   /\ (message err = Some m \/ m = "Unknown error."%string)
                   /\ m <> ""%string).
Proof.
  cbv zeta.
  assert (Herr : error (loadSheetsData_settled tab (Rejected err) v) <> ""%string).
  { cbn. destruct (is_401 err); cbn;
      [apply unauthorized_message_nonempty | apply load_error_nonempty]. }
  assert (Hpage := pageRendered_error _ Herr).
  assert (Htable : tableMounted (loadSheetsData_settled tab (Rejected err) v) = false)
    by (unfold tableMounted; now rewrite Hpage).
  assert (Hshown : commit_marks v (loadSheetsData_settled tab (Rejected err) v)
                     (selection (loadSheetsData_settled tab (Rejected err) v))
                   = mkSelection ∅ ∅ ∅ (lastClickedCoords (selection v))
                                 (startCellCoords (selection v)) (isMouseDown (selection v))).
  { unfold commit_marks. rewrite Htable, andb_false_r.
    now rewrite selection_of_loadSheetsData_settled. }
  unfold commit. cbn [with_selection selection]. rewrite Hshown, Htable.
  cbn [cell_selecionada cabecalho_selecionado indicador_selecionado lastClickedCoords].
  unfold selectorEnabled. rewrite Hpage.
  cbn [loadSheetsData_settled]. unfold is_401.
  assert (Hmsg : exists m, ("Erro ao carregar dados da aba: " +:+ message_or_unknown err)%string
                           = ("Erro ao carregar dados da aba: " +:+ m)%string
                           /\ (message err = Some m \/ m = "Unknown error."%string)
                           /\ m <> ""%string).
  { exists (message_or_unknown err). split; [reflexivity|].
    unfold message_or_unknown. destruct (message err) as [m|]; [|split; [now right | discriminate]].
    destruct (String.eqb_spec m ""); [split; [now right | discriminate]|].
    split; [now left | assumption]. }
  destruct (response_status err) as [status|] eqn:Hst.
  - destruct (Z.eqb_spec status 401) as [-> | Hne]; cbn.
    + repeat (split; [reflexivity|]).
      split; [intros _; split; reflexivity | intros Hno; congruence].
    + repeat (split; [reflexivity|]).
      split; [intros [= ->]; contradiction | intros _; split; [reflexivity | exact Hmsg]].
  - cbn. repeat (split; [reflexivity|]).
    split; [discriminate | intros _; split; [reflexivity | exact Hmsg]].
Qed.

Lemma tabEffect_fields prev next :
  initialLoading (fst (tabEffect prev next)) = initialLoading next
  /\ navigation (fst (tabEffect prev next)) = navigation next
  /\ selectedTab (fst (tabEffect prev next)) = selectedTab next
  /\ sheetTabs (fst (tabEffect prev next)) = sheetTabs next
  /\ data (fst (tabEffect prev next)) = data next
  /\ ((tabEffect prev next = (next, []))
      \/ (snd (tabEffect prev next) = [selectedTab next]
          /\ error (fst (tabEffect prev next)) = ""%string
          /\ currentTabLoading (fst (tabEffect prev next)) = true
          /\ selectedTab next <> ""%string
          /\ initialLoading next = false)).
Proof.
  unfold tabEffect.
  destruct (negb (String.eqb (selectedTab prev) (selectedTab next))
            || negb (Bool.eqb (initialLoading prev) (initialLoading next)));
    [|cbn; repeat split; now left].
  destruct (String.eqb_spec (selectedTab next) "") as [E | Hne];
    [cbn; repeat split; now left|].
  destruct (initialLoading next) eqn:Hil; [cbn; rewrite ?Hil; repeat split; now left|].
  cbn [negb andb]. unfold loadSheetsData_begin.
  destruct (String.eqb_spec (selectedTab next) ""); [contradiction|].
  cbn. rewrite ?Hil. repeat split. right. repeat split. assumption.
Qed.

Lemma tabEffect_idle prev next :
  selectedTab next = ""%string -> tabEffect prev next = (next, []).
Proof.
  intros E. destruct (tabEffect_fields prev next) as (_ & _ & _ & _ & _ & [H | H]);
    [exact H | tauto].
Qed.

Lemma error_invariant_same s v :
  error_invariant s ->
  initialLoading v = initialLoading (view s) -> error v = error (view s) ->
  navigation v = navigation (view s) ->
  error_invariant (mkSystem v (tabsRequest s) (pending s)).
Proof.
  unfold error_invariant. cbn [view tabsRequest pending]. intros Hinv E1 E2 E3.
  now rewrite E1, E2, E3.
Qed.

Lemma error_after_initialize o v :
  error v = ""%string -> navigation v = [] ->
  initialLoading (initializeDashboard_settled o v) = false
  /\ (error (initializeDashboard_settled o v) = ""%string ->
      navigation (initializeDashboard_settled o v) = [])
  /\ (forall target, In target (navigation (initializeDashboard_settled o v)) ->
                     target = "/login"%string).
Proof.
  intros He Hn. destruct o as [[|t tabs] | err]; cbn; rewrite ?He, ?Hn.
  - repeat split; intros; cbn in *; try reflexivity; contradiction.
  - repeat split; intros; cbn in *; try reflexivity; contradiction.
  - destruct (is_401 err); cbn; rewrite ?Hn.
    + split; [reflexivity|]. split.
      * intros E. now apply unauthorized_message_nonempty in E.
      * cbn. intros target [<- | []]. reflexivity.
    + repeat split; intros; cbn in *; try reflexivity; contradiction.
Qed.

Lemma error_after_load tab o v :
  error v = ""%string -> navigation v = [] ->
  (error (loadSheetsData_settled tab o v) = ""%string ->
   navigation (loadSheetsData_settled tab o v) = [])
  /\ (forall target, In target (navigation (loadSheetsData_settled tab o v)) ->
                     target = "/login"%string).
Proof.
  intros He Hn. destruct o as [rows | err]; cbn; rewrite ?He, ?Hn.
  - split; intros; cbn in *; try reflexivity; contradiction.
  - destruct (is_401 err); cbn; rewrite ?Hn.
    + split.
      * intros E. now apply unauthorized_message_nonempty in E.
      * cbn. intros target [<- | []]. reflexivity.
    + split; intros; cbn in *; try reflexivity; contradiction.
Qed.

Lemma error_invariant_step s s' :
  requests_invariant s -> error_invariant s -> step s s' -> error_invariant s'.
Proof.
  intros Hreq Hinv Hstep.
  destruct Hstep as [s o Ht | s value Hen Hin | s before tab after o Hp
                    | s year Hr Hin | s checkAll Hr | s Hd | s He | s target | s
                    | s e target Hm Hin | s target Hm Hin
                    | s e colIndex Hm Hin | s e rowIndex Hm Hin];
    try (solve [apply error_invariant_same; [assumption| | |];
                first [reflexivity | destruct checkAll; reflexivity]]).
  - (* the tab list arrives *)
    destruct Hreq as (Hboot & _). destruct (Hboot Ht) as (Hp & Hil & Hcl & Hsel).
    assert (Herr : error (view s) = ""%string) by (now apply Hinv).
    assert (Hnav : navigation (view s) = []) by (now apply Hinv).
    destruct (error_after_initialize o (view s) Herr Hnav) as (Hfalse & Hquiet & Hlogin).
    unfold rerender.
    destruct (tabEffect_fields (view s) (initializeDashboard_settled o (view s)))
      as (Fi & Fn & _ & _ & _ & Fcase).
    destruct (tabEffect (view s) (initializeDashboard_settled o (view s))) as [v sent] eqn:Et.
    cbn [fst snd] in *. unfold error_invariant. cbn [view tabsRequest pending].
    rewrite Hp, Fi, Fn. cbn [app].
    split; [discriminate|]. split; [intros _; exact Hfalse|].
    destruct Fcase as [[= -> ->] | (-> & Fe & _ & Hne & _)].
    + split; [tauto|]. split; [exact Hquiet | exact Hlogin].
    + rewrite Fe. split; [congruence|]. split; [|exact Hlogin]. intros _.
      destruct o as [[|t tabs] | err]; cbn; rewrite ?Hnav; try reflexivity.
      exfalso. apply Hne. cbn. destruct (is_401 err); exact Hsel.
  - (* another tab is picked *)
    assert (Herr : error (view s) = ""%string).
    { unfold selectorEnabled, pageRendered in Hen. rewrite !andb_true_iff in Hen.
      destruct Hen as [[[_ He] _] _]. now apply String.eqb_eq in He. }
    assert (Hnav : navigation (view s) = []) by (now apply Hinv).
    apply selectorEnabled_true in Hen as [Hil Hcl].
    assert (Htr : tabsRequest s = false).
    { destruct Hreq as (Hboot & _). destruct (tabsRequest s); [|reflexivity].
      destruct (Hboot eq_refl) as (_ & Hil' & _). congruence. }
    unfold rerender.
    destruct (tabEffect_fields (view s) (handleTabChange value (view s)))
      as (Fi & Fn & _ & _ & _ & Fcase).
    destruct (tabEffect (view s) (handleTabChange value (view s))) as [v sent].
    cbn [fst snd] in *. unfold error_invariant. cbn [view tabsRequest pending].
    rewrite Htr, Fi, Fn. cbn [handleTabChange initialLoading navigation]. rewrite Hnav.
    split; [discriminate|]. split; [intros _; exact Hil|].
    split; [|split; [reflexivity | intros target []]].
    destruct Fcase as [[= -> ->] | (-> & Fe & _)]; cbn; intros Hne; congruence.
  - (* a response arrives *)
    destruct Hreq as (Hboot & Hone & Hidle).
    assert (Hnil : before = [] /\ after = []).
    { destruct Hone as [E | [E _]]; rewrite Hp in E.
      - now destruct before.
      - destruct before as [|b before]; [injection E as _ E; now subst|].
        injection E as _ E. now destruct before. }
    destruct Hnil as [-> ->].
    assert (Htr : tabsRequest s = false).
    { destruct (tabsRequest s); [|reflexivity].
      destruct (Hboot eq_refl) as (E & _). rewrite Hp in E. discriminate. }
    assert (Herr : error (view s) = ""%string).
    { destruct (String.eqb_spec (error (view s)) "") as [E | Hne]; [exact E|].
      destruct Hinv as (_ & _ & Hquiet & _). destruct (Hquiet Hne) as [E _].
      rewrite Hp in E. discriminate. }
    assert (Hnav : navigation (view s) = []) by (now apply Hinv).
    destruct (error_after_load tab o (view s) Herr Hnav) as (Hquiet & Hlogin).
    destruct Hinv as (_ & Hil & _ & _).
    unfold error_invariant. cbn [view tabsRequest pending app]. rewrite Htr.
    split; [discriminate|]. split.
    { intros _. change (initialLoading (loadSheetsData_settled tab o (view s)) = false).
      destruct o as [rows | err]; cbn; [|destruct (is_401 err); cbn]; now apply Hil. }
    split; [tauto|]. split; [exact Hquiet | exact Hlogin].
  - (* the button of the error screen *)
    unfold errorScreen in He. apply andb_true_iff in He as [Hil He].
    apply negb_true_iff in Hil, He.
    assert (Hne : error (view s) <> ""%string).
    { intros E. rewrite E in He. discriminate. }
    destruct Hinv as (H1 & H2 & H3 & H4 & H5).
    unfold error_invariant. cbn [view tabsRequest pending errorScreen_onClick
                                 error initialLoading navigation].
    split; [exact H1|]. split; [exact H2|]. split; [exact H3|].
    split; [intros E; contradiction|].
    intros target [<- | Hin]; [reflexivity | now apply H5].
Qed.

Lemma error_invariant_reachable s : reachable s -> error_invariant s.
Proof.
  induction 1 as [|s s' Hr IH Hstep].
  - unfold error_invariant, boot. cbn. repeat split; try discriminate; tauto.
  - exact (error_invariant_step s s' (requests_invariant_reachable s Hr) IH Hstep).
Qed.

Lemma same_session_with_selection sel v : same_session v (with_selection sel v).
Proof. unfold same_session. repeat split. Qed.

Lemma errorScreen_of_error v :
  initialLoading v = false -> error v <> ""%string -> errorScreen v = true.
Proof.
  intros Hil Hne. unfold errorScreen. rewrite Hil.
  destruct (String.eqb_spec (error v) ""); [contradiction | reflexivity].
Qed.

(** X13: the error screen is final. Once an error message is set in a state
    the page can reach, no request is pending any more, and whatever event
    comes next, the message, the records, the tabs and the years stay as
    they are. What can still happen is a press on the screen's button,
    which calls [router.replace('/login')] once more each time, and the
    mouse listeners on the document, which no longer find a table. *)
Theorem error_screen_is_final (s s' : System) :
  reachable s ->
  error (view s) <> ""%string ->
  step s s' ->
  same_session (view s) (view s')
  /\ (navigation (view s') = navigation (view s)
      \/ navigation (view s') = "/login"%string :: navigation (view s))
  /\ errorScreen (view s) = true /\ errorScreen (view s') = true
  /\ pending s = [] /\ tabsRequest s = false
  /\ pending s' = [] /\ tabsRequest s' = false.
Proof.
  intros Hr Herr Hstep.
  destruct (error_invariant_reachable s Hr) as (_ & Hloaded & Hquiet & _).
  destruct (Hquiet Herr) as [Hp Htr].
  pose proof (errorScreen_of_error _ (Hloaded Htr) Herr) as Hscreen.
  pose proof (pageRendered_error _ Herr) as Hpage.
  assert (Htable : tableMounted (view s) = false)
    by (unfold tableMounted; now rewrite Hpage).
  assert (Hsel : selectorEnabled (view s) = false)
    by (unfold selectorEnabled; now rewrite Hpage).
  assert (Hdrop : dropdownMounted (view s) = false)
    by (unfold dropdownMounted; now rewrite Hpage).
  destruct Hstep as [s o Ht | s value Hen Hin | s before tab after o Hpe
                    | s year Hre Hin | s checkAll Hre | s Hd | s He | s target | s
                    | s e target Hm Hin | s target Hm Hin
                    | s e colIndex Hm Hin | s e rowIndex Hm Hin];
    try congruence.
  - rewrite Hp in Hpe. now destruct before.
  - cbn [view pending tabsRequest]. split; [unfold same_session; repeat split|].
    split; [now right|]. repeat split; assumption.
  - cbn [view pending tabsRequest]. split; [unfold same_session; repeat split|].
    split; [now left|]. repeat split; assumption.
  - cbn [view pending tabsRequest]. split; [apply same_session_with_selection|].
    split; [now left|]. repeat split; assumption.
Qed.

Lemma sample_system_refused_reachable : reachable sample_system_refused.
Proof.
  apply (reachable_step sample_system); [exact sample_system_reachable|].
  exact (step_data_settled sample_system [] "2023" [] (Rejected unauthorized) eq_refl).
Defined.

Lemma error_screen_witness :
  reachable sample_system_refused
  /\ error (view sample_system_refused) <> ""%string
  /\ step sample_system_refused
          (mkSystem (errorScreen_onClick (view sample_system_refused))
                    (tabsRequest sample_system_refused) (pending sample_system_refused))
  /\ same_session (view sample_system_refused)
                  (errorScreen_onClick (view sample_system_refused))
  /\ navigation (errorScreen_onClick (view sample_system_refused))
     = ["/login"; "/login"]%string.
Proof.
  split; [exact sample_system_refused_reachable|].
  split; [discriminate|].
  split; [exact (step_error_login_click sample_system_refused eq_refl)|].
  split; [|reflexivity].
  exact (proj1 (error_screen_is_final sample_system_refused _
                  sample_system_refused_reachable
                  ltac:(discriminate)
                  (step_error_login_click sample_system_refused eq_refl))).
Defined.

(** X14: the page calls [router.replace] with no target but [/login], and
    only with an error on screen: in every state it can reach, every
    navigation made was to [/login], and if one was made then an error
    message is set, the dashboard is off screen and no request is pending.
    While the dashboard is shown, none was made. *)
Theorem every_navigation_is_to_login_with_an_error (s : System) :
  reachable s ->
  (forall target, In target (navigation (view s)) -> target = "/login"%string)
  /\ (navigation (view s) <> [] ->
      error (view s) <> ""%string /\ pageRendered (view s) = false
      /\ pending s = [] /\ tabsRequest s = false)
  /\ (pageRendered (view s) = true -> navigation (view s) = []).
Proof.
  intros Hr. destruct (error_invariant_reachable s Hr) as (_ & _ & Hquiet & Hnone & Hlogin).
  split; [exact Hlogin|]. split.
  - intros Hne.
    assert (Herr : error (view s) <> ""%string) by (intros E; now apply Hne, Hnone).
    split; [exact Herr|]. split; [now apply pageRendered_error|]. now apply Hquiet.
  - intros Hpage. apply Hnone. unfold pageRendered in Hpage.
    apply andb_true_iff in Hpage as [_ He]. now apply String.eqb_eq in He.
Qed.

Lemma every_navigation_witness :
  reachable sample_system_refused
  /\ navigation (view sample_system_refused) = ["/login"%string]
  /\ pageRendered (view sample_system_refused) = false.
Proof.
  split; [exact sample_system_refused_reachable|]. split; [reflexivity|].
  pose proof (every_navigation_is_to_login_with_an_error sample_system_refused
                sample_system_refused_reachable) as (_ & H & _).
  exact (proj1 (proj2 (H ltac:(discriminate)))).
Defined.

(** ** The first load *)

(** X15: when the tab list arrives, the page stops its initial loading. With
    a non-empty list it selects the first tab and, unless that name is
    empty, requests its records at once, that request being the only one
    pending; with an empty list it holds an empty record set and requests
    nothing; when the list is refused it requests nothing and shows an
    error. *)
Theorem first_tab_is_requested_when_the_tabs_arrive (s : System) (o : TabsOutcome) :
  reachable s ->
  tabsRequest s = true ->
  let s' := rerender (view s) (initializeDashboard_settled o (view s))
                     (mkSystem (view s) false (pending s)) in
  step s s'
  /\ initialLoading (view s') = false /\ tabsRequest s' = false
  /\ match o with
     | TabsFulfilled (first :: rest) =>
         sheetTabs (view s') = first :: rest /\ selectedTab (view s') = first
         /\ (first <> ""%string ->
             pending s' = [first] /\ currentTabLoading (view s') = true)
         /\ (first = ""%string -> pending s' = [])
     | TabsFulfilled [] =>
         pending s' = [] /\ data (view s') = Some []
         /\ availableYears (view s') = [] /\ selectedYears (view s') = []
     | TabsRejected err =>
         pending s' = [] /\ error (view s') <> ""%string
     end.
Proof.
  intros Hr Ht. cbv zeta.
  destruct (requests_invariant_reachable s Hr) as (Hboot & _).
  destruct (Hboot Ht) as (Hp & Hil & Hcl & Hsel).
  split; [now apply step_tabs_settled|].
  unfold rerender.
  destruct (tabEffect_fields (view s) (initializeDashboard_settled o (view s)))
    as (Fi & _ & Fs & Ft & _ & _).
  destruct o as [[|first rest] | err].
  - rewrite tabEffect_idle by exact Hsel. cbn. rewrite Hp. repeat split.
  - destruct (tabEffect (view s) (initializeDashboard_settled (TabsFulfilled (first :: rest)) (view s)))
      as [v sent] eqn:Et. cbn [fst snd view tabsRequest pending] in *.
    rewrite Fi, Fs, Ft, Hp. cbn [app].
    split; [reflexivity|]. split; [reflexivity|]. split; [reflexivity|]. split; [reflexivity|].
    unfold tabEffect in Et. cbn [initializeDashboard_settled selectedTab initialLoading] in Et.
    rewrite Hil, Hsel in Et. cbn [Bool.eqb negb] in Et. rewrite orb_true_r, andb_true_r in Et.
    unfold loadSheetsData_begin in Et.
    destruct (String.eqb_spec first "") as [E | Hne]; cbn in Et; injection Et as <- <-.
    + split; [intros Hne; contradiction | reflexivity].
    + split; [intros _; split; reflexivity | intros E; contradiction].
  - assert (Hidle : selectedTab (initializeDashboard_settled (TabsRejected err) (view s))
                    = ""%string) by (cbn; destruct (is_401 err); exact Hsel).
    rewrite (tabEffect_idle _ _ Hidle). cbn [view tabsRequest pending]. rewrite Hp.
    cbn. destruct (is_401 err); cbn; repeat split;
      solve [apply unauthorized_message_nonempty | apply init_error_nonempty].
Qed.

Lemma first_tab_witness :
  reachable boot /\ tabsRequest boot = true
  /\ step boot sample_system
  /\ pending sample_system = ["2023"%string].
Proof.
  split; [exact reachable_boot|]. split; [reflexivity|].
  pose proof (first_tab_is_requested_when_the_tabs_arrive boot (TabsFulfilled sample_tabs)
                reachable_boot eq_refl) as (Hstep & _ & _ & _ & _ & Hpend & _).
  split; [exact Hstep|]. exact (proj1 (Hpend ltac:(discriminate))).
Defined.

(** ** Filtering and the table on screen *)

Lemma year_is_selected_spec sel r :
  year_is_selected sel r = true <-> exists y, ano r = AnoNumber y /\ y <> 0 /\ In y sel.
Proof.
  unfold year_is_selected. destruct (ano r) as [| |y].
  - split; [discriminate | intros (y & Hy & _); discriminate].
  - split; [discriminate | intros (y & Hy & _); discriminate].
  - rewrite andb_true_iff, negb_true_iff, Z.eqb_neq, includes_In. split.
    + intros [Hy Hin]. now exists y.
    + intros (z & [= <-] & Hz & Hin). now split.
Qed.

Lemma sublist_of_filter {A} (p : A -> bool) (l : list A) : sublist (List.filter p l) l.
Proof.
  induction l as [|x l IH]; simpl; [constructor|].
  destruct (p x); [now apply sublist_skip | now apply sublist_cons].
Qed.

(** X16: filtering by year keeps exactly the records whose year is a
    non-zero number among the selected years, in the order they were
    loaded; with no year selected, or none that a record carries, nothing
    is kept; with no records loaded it stays undefined. *)
Theorem filtered_rows_are_the_selected_records_in_order
  (rows : list SheetDataItem) (sel : list Z) :
  exists filtered,
    filteredData (Some rows) sel = Some filtered
    /\ sublist filtered rows
    /\ (forall r, In r filtered <->
                  In r rows /\ exists y, ano r = AnoNumber y /\ y <> 0 /\ In y sel)
    /\ ((forall r y, In r rows -> ano r = AnoNumber y -> ~ In y sel) -> filtered = [])
    /\ filteredData None sel = None.
Proof.
  exists (List.filter (year_is_selected sel) rows).
  assert (Hin : forall r, In r (List.filter (year_is_selected sel) rows) <->
                          In r rows /\ exists y, ano r = AnoNumber y /\ y <> 0 /\ In y sel).
  { intros r. now rewrite filter_In, year_is_selected_spec. }
  split.
  { unfold filteredData. destruct sel as [|y sel]; [|reflexivity]. cbn. f_equal.
    symmetry.
    destruct (List.filter (year_is_selected []) rows) as [|r rest] eqn:E; [reflexivity|].
    assert (Hr : In r (List.filter (year_is_selected []) rows)) by (rewrite E; now left).
    apply filter_In in Hr as [_ Hr]. now rewrite year_is_selected_nil in Hr. }
  split; [apply sublist_of_filter|]. split; [exact Hin|]. split; [|reflexivity].
  intros Hnone. destruct (List.filter (year_is_selected sel) rows) as [|r rest] eqn:E;
    [reflexivity|].
  exfalso. destruct (proj1 (Hin r) (or_introl eq_refl)) as (Hr & y & Hy & _ & Hsel).
  exact (Hnone r y Hr Hy Hsel).
Qed.

Lemma tableMounted_of_selected v rows r :
  pageRendered v = true -> data v = Some rows ->
  In r rows -> year_is_selected (selectedYears v) r = true ->
  tableMounted v = true.
Proof.
  intros Hpage Hd Hin Hsel. unfold tableMounted, showNoDataMessage, filteredData.
  rewrite Hpage, Hd. cbn [andb].
  destruct (selectedYears v) as [|y sel] eqn:E.
  - now rewrite year_is_selected_nil in Hsel.
  - cbn [length Nat.eqb].
    destruct (List.filter (year_is_selected (y :: sel)) rows) as [|x rest] eqn:Ef;
      [|reflexivity].
    exfalso. assert (Hx : In r (List.filter (year_is_selected (y :: sel)) rows))
      by (apply filter_In; now split).
    rewrite Ef in Hx. destruct Hx.
Qed.

(** X17: in every state the page can reach, ticking "select all" selects
    exactly the available years and leaves them as they are, and brings the
    table on screen whenever the page is shown and there is a year to
    select; unticking it selects no year and takes the table off screen. *)
Theorem select_all_and_none (s : System) :
  reachable s ->
  selectedYears (handleToggleAllYears true (view s)) = availableYears (view s)
  /\ availableYears (handleToggleAllYears true (view s)) = availableYears (view s)
  /\ (pageRendered (view s) = true -> availableYears (view s) <> [] ->
      tableMounted (handleToggleAllYears true (view s)) = true)
  /\ selectedYears (handleToggleAllYears false (view s)) = []
  /\ availableYears (handleToggleAllYears false (view s)) = availableYears (view s)
  /\ tableMounted (handleToggleAllYears false (view s)) = false.
Proof.
  intros Hr. pose proof (years_invariant_reachable s Hr) as Hinv.
  pose proof (years_invariant_available_sorted _ Hinv) as Hs.
  destruct Hinv as (E & _ & _).
  cbn [handleToggleAllYears selectedYears availableYears].
  rewrite (sort_of_sorted _ Hs).
  split; [reflexivity|]. split; [reflexivity|]. split; [|split; [reflexivity|split; [reflexivity|]]].
  - intros Hpage Hne.
    destruct (availableYears (view s)) as [|y rest] eqn:Ea; [contradiction|].
    destruct (data (view s)) as [rows|] eqn:Hd; [|discriminate].
    assert (Hy : In y (yearsOf rows)) by (rewrite <- E; now left).
    apply yearsOf_In in Hy as [(item & Hin & Ha) Hnz].
    apply (tableMounted_of_selected _ rows item); [exact Hpage | reflexivity | exact Hin |].
    cbn [selectedYears]. apply year_is_selected_spec. exists y.
    split; [exact Ha|]. split; [exact Hnz | now left].
  - unfold tableMounted, showNoDataMessage, filteredData. cbn [data selectedYears].
    destruct (data (view s)); cbn; apply andb_false_r.
Qed.

Lemma select_all_witness :
  reachable sample_system_ready
  /\ selectedYears (handleToggleAllYears true
                      (handleToggleAllYears false (view sample_system_ready)))
     = [2022; 2023; 2024]
  /\ selectedYears (handleToggleAllYears true (view sample_system_ready))
     = availableYears (view sample_system_ready).
Proof.
  split; [exact sample_system_ready_reachable|]. split; [reflexivity|].
  exact (proj1 (select_all_and_none sample_system_ready sample_system_ready_reachable)).
Defined.
